(** * polyester.image: layer identity, construction and resolution

    A shallow embedding of [src/polyester/image.py].

    - Python [str] is a Rocq [string] holding the UTF-8 text of the value
      (the way Rocq reads its own string literals); a character lies outside
      ASCII exactly when one of its octets is 128 or more.
    - Python [bytes] is a [list byte].
    - A [dict] whose iteration order the code relies on ([base_layers],
      [context_files]) is an association list in insertion order.
    - Exceptions are values of [exn]; a call that may raise returns a
      [result].
    - The remote stub is a scripted environment; every call the code makes on
      it is appended to a log. *)

From Stdlib Require Import ZArith List String Ascii Strings.Byte Lia Permutation DecimalString.
From stdpp Require Import base option list strings gmap.
Import ListNotations.

#[local] Open Scope string_scope.
#[local] Open Scope list_scope.
#[local] Set Warnings "-register-all".

Abbreviation str := string (only parsing).
Abbreviation bytes := (list byte) (only parsing).

(** ** Text and octets *)

Definition newline : ascii := ascii_of_nat 10.

Definition is_ascii_char (c : ascii) : bool := (N_of_ascii c <? 128)%N.

Definition is_ascii (s : str) : bool := forallb is_ascii_char (list_ascii_of_string s).

(** [b"sep".join(parts)] *)
Fixpoint bytes_join (sep : bytes) (parts : list bytes) : bytes :=
  match parts with
  | [] => []
  | [p] => p
  | p :: rest => p ++ sep ++ bytes_join sep rest
  end.

(** ["%d" % z] and ["%s" % z] for an integer [z]. *)
Definition str_of_Z (z : Z) : str := NilZero.string_of_int (Z.to_int z).

(** ** SHA-256 *)

(** Modelled from the spec: [get_sha256_hex_from_content] lives in
    [polyester/mount.py], which is not part of the sources at hand.  The
    spec gives it SHA-256 semantics with a lowercase hexadecimal digest; the
    algorithm below is FIPS 180-4.  The theorems about [Layer] are stated for
    an arbitrary digest function; this one instantiates them on concrete
    inputs. *)
Module SHA256.
#[local] Open Scope Z_scope.

Definition w32 (x : Z) : Z := Z.land x (Z.ones 32).
Definition add32 (x y : Z) : Z := w32 (x + y).
Definition rotr (n x : Z) : Z := Z.lor (Z.shiftr x n) (w32 (Z.shiftl x (32 - n))).

Definition Ch (x y z : Z) : Z := Z.lxor (Z.land x y) (Z.land (Z.lnot x) z).
Definition Maj (x y z : Z) : Z :=
  Z.lxor (Z.lxor (Z.land x y) (Z.land x z)) (Z.land y z).
Definition Sigma0 (x : Z) : Z := Z.lxor (Z.lxor (rotr 2 x) (rotr 13 x)) (rotr 22 x).
Definition Sigma1 (x : Z) : Z := Z.lxor (Z.lxor (rotr 6 x) (rotr 11 x)) (rotr 25 x).
Definition sigma0 (x : Z) : Z := Z.lxor (Z.lxor (rotr 7 x) (rotr 18 x)) (Z.shiftr x 3).
Definition sigma1 (x : Z) : Z := Z.lxor (Z.lxor (rotr 17 x) (rotr 19 x)) (Z.shiftr x 10).

(** The round constants are the first 32 fractional bits of the cube roots
    of the first 64 primes, the initial state those of the square roots of
    the first 8; both are computed rather than tabulated. *)
Definition is_prime (p : Z) : bool :=
  (1 <? p) && forallb (fun d => negb (p mod d =? 0)) (map Z.of_nat (seq 2 (Z.to_nat p - 2))).

Definition primes64 : list Z :=
  Eval vm_compute in firstn 64 (filter is_prime (map Z.of_nat (seq 0 320))).

(** Integer cube root, one bit at a time from bit 39 down. *)
Definition icbrt (n : Z) : Z :=
  fold_left (fun r i => let r' := r + 2 ^ Z.of_nat i in
                        if r' * r' * r' <=? n then r' else r)
            (rev (seq 0 40)) 0.

Definition K : list Z :=
  Eval vm_compute in map (fun p => w32 (icbrt (p * 2 ^ 96))) primes64.

Definition H0 : list Z :=
  Eval vm_compute in map (fun p => w32 (Z.sqrt (p * 2 ^ 64))) (firstn 8 primes64).

(** Big-endian octets of [x], [n] of them. *)
Fixpoint be_octets (n : nat) (x : Z) : list Z :=
  match n with
  | O => []
  | S n' => Z.land (Z.shiftr x (8 * Z.of_nat n')) 255 :: be_octets n' x
  end.

Definition be_word (octets : list Z) : Z := fold_left (fun acc o => acc * 256 + o) octets 0.

Definition pad (m : list Z) : list Z :=
  let len := Z.of_nat (length m) in
  m ++ [128] ++ repeat 0 (Z.to_nat ((55 - len) mod 64)) ++ be_octets 8 (8 * len).

Fixpoint chunks {A} (count size : nat) (l : list A) : list (list A) :=
  match count with
  | O => []
  | S c => firstn size l :: chunks c size (skipn size l)
  end.

(** The message schedule: [win] holds the sixteen latest words. *)
Fixpoint schedule (n : nat) (win : list Z) : list Z :=
  match n with
  | O => []
  | S n' =>
      let w := add32 (add32 (sigma1 (nth 14 win 0)) (nth 9 win 0))
                     (add32 (sigma0 (nth 1 win 0)) (nth 0 win 0)) in
      nth 0 win 0 :: schedule n' (tl win ++ [w])
  end.

Definition round (s : list Z) (kw : Z * Z) : list Z :=
  match s with
  | [a; b; c; d; e; f; g; h] =>
      let t1 := add32 (add32 (add32 h (Sigma1 e)) (add32 (Ch e f g) (fst kw))) (snd kw) in
      let t2 := add32 (Sigma0 a) (Maj a b c) in
      [add32 t1 t2; a; b; c; add32 d t1; e; f; g]
  | _ => s
  end.

Definition compress (h : list Z) (block : list Z) : list Z :=
  let ws := schedule 64 (map be_word (chunks 16 4 block)) in
  let s := fold_left round (combine K ws) h in
  map (fun p => add32 (fst p) (snd p)) (combine h s).

Definition digest (m : list Z) : list Z :=
  let p := pad m in
  fold_left compress (chunks (length p / 64) 64 p) H0.

Definition hex_digit (n : Z) : ascii :=
  match String.get (Z.to_nat n) "0123456789abcdef" with
  | Some c => c
  | None => "0"%char
  end.

Definition hex_word (x : Z) : str :=
  string_of_list_ascii
    (map (fun i => hex_digit (Z.land (Z.shiftr x (4 * Z.of_nat i)) 15)) (rev (seq 0 8))).

Definition hexdigest (content : bytes) : str :=
  String.concat "" (map hex_word (digest (map (fun b => Z.of_N (Byte.to_N b)) content))).
End SHA256.

(** ** Values, exceptions, results *)

(** What a caller may put in [dockerfile_commands]: text, octets, or a value
    of some other type. *)
Inductive pyval :=
| PyStr (s : str)
| PyBytes (b : bytes)
| PyInt (z : Z)
| PyNone.

Inductive exn :=
| AssertionError
| UnicodeEncodeError
| TypeError
| KeyboardInterrupt
| RemoteException (payload : str)
| RpcError (details : str).

Inductive result (A : Type) :=
| Ok (a : A)
| Raise (e : exn).
Arguments Ok {A} a.
Arguments Raise {A} e.

#[global] Instance result_ret : MRet result := fun _ a => Ok a.
#[global] Instance result_bind : MBind result := fun _ _ f r =>
  match r with
  | Ok a => f a
  | Raise e => Raise e
  end.

(** Truth value of an optional string in a condition: [None] and [""] are
    false. *)
Definition truthy (o : option str) : bool :=
  match o with
  | Some s => negb (String.eqb s "")
  | None => false
  end.

(** [s.encode("ascii")] *)
Definition encode_ascii (s : str) : result bytes :=
  if is_ascii s then Ok (list_byte_of_string s) else Raise UnicodeEncodeError.

(** ** Layer *)

(** A layer object: the fields of [self.args], and [object_id].  The
    attribute [object_id] comes from the base class [Object], which is not
    part of the sources at hand; following the spec it is the identifier the
    remote side assigns, kept on the object once it is resolved, and [None]
    until then. *)
Inductive Layer := mkLayer {
  local_id : str;
  tag : option str;
  base_layers : list (str * Layer);
  dockerfile_commands : list bytes;
  context_files : list (str * bytes);
  must_create : bool;
  local : bool;
  object_id : option str
}.

Definition with_object_id (oid : option str) (l : Layer) : Layer :=
  mkLayer (local_id l) (tag l) (base_layers l) (dockerfile_commands l)
          (context_files l) (must_create l) (local l) oid.

Section Construction.

(** [polyester.mount.get_sha256_hex_from_content], a parameter. *)
Variable get_sha256_hex_from_content : bytes -> str.

Definition _make_bytes (s : pyval) : result bytes :=
  match s with
  | PyStr t => encode_ascii t
  | PyBytes b => Ok b
  | _ => Raise AssertionError
  end.

(** The list [local_id_args] as the constructor builds it, one [append]
    after the other. *)
Definition local_id_args (base_layers : list (str * Layer))
    (dockerfile_commands : list bytes) (context_files : list (str * bytes)) : list str :=
  let args := [] in
  let args :=
    fold_left (fun acc '(docker_tag, layer) =>
                 acc ++ ["b:" +:+ docker_tag +:+ ":(" +:+ local_id layer +:+ ")"])
              base_layers args in
  let args :=
    args ++ ["c:" +:+ get_sha256_hex_from_content
                        (bytes_join [byte_of_ascii newline] dockerfile_commands)] in
  let args :=
    fold_left (fun acc '(filename, content) =>
                 acc ++ ["f:" +:+ filename +:+ ":" +:+ get_sha256_hex_from_content content])
              context_files args in
  args.

Definition Layer__init__ (tag : option str) (base_layers : list (str * Layer))
    (dockerfile_commands : list pyval) (context_files : list (str * bytes))
    (must_create local : bool) : result Layer :=
  dockerfile_commands ← mapM _make_bytes dockerfile_commands;
  mret (mkLayer (String.concat "," (local_id_args base_layers dockerfile_commands context_files))
                tag base_layers dockerfile_commands context_files must_create local None).

(** The identity string as the specification words it: the entries for the
    base layers, then the one for the commands, then those for the context
    files, separated by commas. *)
Definition spec_local_id (base_layers : list (str * Layer))
    (commands : list bytes) (context_files : list (str * bytes)) : str :=
  String.concat ","
    (map (fun b => "b:" +:+ b.1 +:+ ":(" +:+ local_id b.2 +:+ ")") base_layers
     ++ ["c:" +:+ get_sha256_hex_from_content (bytes_join [byte_of_ascii newline] commands)]
     ++ map (fun f => "f:" +:+ f.1 +:+ ":" +:+ get_sha256_hex_from_content f.2) context_files).

(** *** Presets *)

(** [config["image_python_version"]] and [sys.version_info[:3]]. *)
Variable config_image_python_version : option str.
Variable sys_version_info : Z * Z * Z.

Definition get_python_version : str :=
  if truthy config_image_python_version
  then default "" config_image_python_version
  else let '(major, minor, micro) := sys_version_info in
       str_of_Z major +:+ "." +:+ str_of_Z minor +:+ "." +:+ str_of_Z micro.

(** A [DebianSlim] is a [Layer] with one more attribute. *)
Record DebianSlim := mkDebianSlim {
  as_layer : Layer;
  python_version : str
}.

Definition DebianSlim__init__ (python_version : option str) : result DebianSlim :=
  let python_version :=
    match python_version with
    | None => get_python_version
    | Some v => v
    end in
  let tag := "python-" +:+ python_version +:+ "-slim-buster-base" in
  layer ← Layer__init__ (Some tag) [] [] [] false false;
  mret (mkDebianSlim layer python_version).

Definition add_python_packages (self : DebianSlim) (python_packages : list str)
    (find_links : option str) : result Layer :=
  let find_links_arg :=
    if truthy find_links then "-f " +:+ default "" find_links else "" in
  builder ← Layer__init__
              (Some ("python-" +:+ python_version self +:+ "-slim-buster-builder"))
              [] [] [] false false;
  Layer__init__ None
    [("base", as_layer self); ("builder", builder)]
    [PyStr "FROM builder as builder-vehicle";
     PyStr ("RUN pip wheel " +:+ String.concat " " python_packages
            +:+ " -w /tmp/wheels " +:+ find_links_arg);
     PyStr "FROM base";
     PyStr "COPY --from=builder-vehicle /tmp/wheels /tmp/wheels";
     PyStr "RUN pip install /tmp/wheels/*";
     PyStr "RUN rm -rf /tmp/wheels"]
    [] false false.

(** [a + b] with a text on the left: defined when [b] is a text too. *)
Definition str_add (a : str) (b : pyval) : result pyval :=
  match b with
  | PyStr s => Ok (PyStr (a +:+ s))
  | _ => Raise TypeError
  end.

(** The comprehension is evaluated, command by command, before the
    constructor is called. *)
Definition run_commands (self : DebianSlim) (commands : list pyval) : result Layer :=
  run_lines ← mapM (fun command => str_add "RUN " command) commands;
  Layer__init__ None
    [("base", as_layer self)]
    (PyStr "FROM base" :: run_lines)
    [] false false.

End Construction.

(** The six lines of the build script of [add_python_packages]. *)
Definition wheel_script (python_packages : list str) (find_links : option str) : list str :=
  ["FROM builder as builder-vehicle";
   "RUN pip wheel " +:+ String.concat " " python_packages +:+ " -w /tmp/wheels "
     +:+ (if truthy find_links then "-f " +:+ default "" find_links else "");
   "FROM base";
   "COPY --from=builder-vehicle /tmp/wheels /tmp/wheels";
   "RUN pip install /tmp/wheels/*";
   "RUN rm -rf /tmp/wheels"].

(** [os.getenv(key)] *)
Definition os_getenv (environ : gmap string string) (key : str) : option str :=
  environ !! key.

(** [o == s] for an optional string [o] and a string [s]. *)
Definition opt_str_eq (o : option str) (s : str) : bool :=
  match o with
  | Some v => String.eqb v s
  | None => false
  end.

Definition is_inside (environ : gmap string string) (self : Layer) : bool :=
  opt_str_eq (os_getenv environ "POLYESTER_IMAGE_LOCAL_ID") (local_id self).

(** *** Forms of a command *)

(** Text or octets: the two forms [_make_bytes] lets through. *)
Definition accepted_form (c : pyval) : bool :=
  match c with
  | PyStr _ | PyBytes _ => true
  | _ => false
  end.

(** In the words of the specification: [ascii_form c b] when [b] is the
    command [c] supplied as octets, a text standing for its ASCII encoding. *)
Inductive ascii_form : pyval -> bytes -> Prop :=
| ascii_form_text (s : str) :
    is_ascii s = true -> ascii_form (PyStr s) (list_byte_of_string s)
| ascii_form_bytes (b : bytes) :
    ascii_form (PyBytes b) b.

(** ** Resolution *)

(** The messages of [api_pb2] that [create_or_get] builds and reads. *)
Module api_pb2.
Module LayerGetByTagRequest.
Record t := mk { tag : str }.
End LayerGetByTagRequest.
Module BaseLayer.
Record t := mk { docker_tag : str; layer_id : str }.
End BaseLayer.
Module LayerContextFile.
Record t := mk { filename : str; data : bytes }.
End LayerContextFile.
Module Layer.
Record t := mk {
  base_layers : list BaseLayer.t;
  dockerfile_commands : list bytes;
  context_files : list LayerContextFile.t;
  local_id : str;
  local : bool
}.
End Layer.
Module LayerGetOrCreateRequest.
Record t := mk { session_id : str; layer : Layer.t; must_create : bool }.
End LayerGetOrCreateRequest.
Module LayerJoinRequest.
Record t := mk { layer_id : str; timeout : Z; session_id : str }.
End LayerJoinRequest.
(** [LayerGetByTagResponse] and [LayerGetOrCreateResponse]: only [layer_id]
    is read. *)
Module LayerResponse.
Record t := mk { layer_id : str }.
End LayerResponse.
Module GenericResult.
Record t := mk { status : Z; exception : str }.
End GenericResult.
Module LayerJoinResponse.
Record t := mk { result : GenericResult.t }.
End LayerJoinResponse.
End api_pb2.

(** What the code asks of its collaborators, in the order it asks. *)
Inductive call :=
| LayerGetByTag (req : api_pb2.LayerGetByTagRequest.t)
| LayerGetOrCreate (req : api_pb2.LayerGetOrCreateRequest.t)
| LayerJoin (req : api_pb2.LayerJoinRequest.t) (timeout : Z)
| create_or_get_object (layer : Layer).

(** [self.client.stub]: the answer to each request, or the exception the call
    raises. *)
Record Stub := mkStub {
  stub_LayerGetByTag : api_pb2.LayerGetByTagRequest.t -> result api_pb2.LayerResponse.t;
  stub_LayerGetOrCreate : api_pb2.LayerGetOrCreateRequest.t -> result api_pb2.LayerResponse.t
}.

(** Modelled from the spec: [self.session].  [Session.create_or_get_object]
    is not part of the sources at hand; here it is a collaborator that hands
    back the object, resolved, or raises.  Whether it reaches the remote side
    or answers from a cache is its own business.  [session_finished_at] is
    the time at which its call for a layer ends: of the calls that run side
    by side under [gather], it tells which one raised first. *)
Record Session := mkSession {
  session_id : str;
  session_create_or_get_object : Layer -> result Layer;
  session_finished_at : Layer -> nat
}.

(** Modelled from the spec: [retry] of [async_utils] is not part of the
    sources at hand; it repeats a call only when the transport fails.
    [join_replies] are the outcomes of the coming [retry(stub.LayerJoin)]
    calls, first to last: a response, or the exception that [retry] lets
    through.  [world_log] is what has been asked so far. *)
Record world := mkWorld {
  join_replies : list (result api_pb2.LayerJoinResponse.t);
  world_log : list call
}.

(** How a coroutine ends: with a value, with an exception, or never, when
    the reply it awaits does not come. *)
Inductive outcome (A : Type) :=
| Done (a : A)
| Raised (e : exn)
| Waiting.
Arguments Done {A} a.
Arguments Raised {A} e.
Arguments Waiting {A}.

Definition M (A : Type) : Type := world -> outcome A * world.

#[global] Instance M_ret : MRet M := fun _ a w => (Done a, w).
#[global] Instance M_bind : MBind M := fun _ _ f m w =>
  match m w with
  | (Done a, w') => f a w'
  | (Raised e, w') => (Raised e, w')
  | (Waiting, w') => (Waiting, w')
  end.

(** One awaited call: it is logged, then its reply is the result. *)
Definition await {A} (c : call) (reply : result A) : M A := fun w =>
  (match reply with Ok a => Done a | Raise e => Raised e end,
   mkWorld (join_replies w) (world_log w ++ [c])).

(** [asyncio.gather] over coroutines, each given with the time at which it
    ends.  All of them are started, in order, and each runs its calls. *)
Fixpoint gather_start {A} (coroutines : list (nat * M A)) (w : world)
    : list (nat * outcome A) * world :=
  match coroutines with
  | [] => ([], w)
  | (t, c) :: coroutines =>
      let r := c w in
      let rs := gather_start coroutines r.2 in
      ((t, r.1) :: rs.1, rs.2)
  end.

(** The exception that was raised first in time, if any was raised. *)
Fixpoint first_raised {A} (results : list (nat * outcome A)) : option (nat * exn) :=
  match results with
  | [] => None
  | (t, o) :: results =>
      match o, first_raised results with
      | Raised e, Some (t', e') => if (t' <? t)%nat then Some (t', e') else Some (t, e)
      | Raised e, None => Some (t, e)
      | _, later => later
      end
  end.

(** The values, in the order of the coroutines, once all are done. *)
Fixpoint gathered_values {A} (results : list (nat * outcome A)) : outcome (list A) :=
  match results with
  | [] => Done []
  | (_, o) :: results =>
      match o, gathered_values results with
      | Done a, Done l => Done (a :: l)
      | _, _ => Waiting
      end
  end.

(** The caller gets the exception raised first in time when a coroutine
    raises, the values when all are done, and nothing while one of them is
    still waiting and none has raised. *)
Definition gather {A} (coroutines : list (nat * M A)) : M (list A) := fun w =>
  let rs := gather_start coroutines w in
  (match first_raised rs.1 with
   | Some (_, e) => Raised e
   | None => gathered_values rs.1
   end,
   rs.2).

(** A scripted [LayerJoin] response with the given status and diagnostic. *)
Definition join_reply (status : Z) (exception : str) : result api_pb2.LayerJoinResponse.t :=
  Ok (api_pb2.LayerJoinResponse.mk (api_pb2.GenericResult.mk status exception)).

Definition is_LayerGetOrCreate (c : call) : bool :=
  match c with
  | LayerGetOrCreate _ => true
  | _ => false
  end.

Definition is_create_or_get_object (c : call) : bool :=
  match c with
  | create_or_get_object _ => true
  | _ => false
  end.

Section Resolution.

(** [api_pb2.GenericResult.Status.SUCCESS] and [.FAILURE], and the two
    timeouts of [grpc_utils], parameters. *)
Variables SUCCESS FAILURE : Z.
Variables BLOCKING_REQUEST_TIMEOUT GRPC_REQUEST_TIMEOUT : Z.

Definition join_request (layer_id session_id : str) : call :=
  LayerJoin (api_pb2.LayerJoinRequest.mk layer_id BLOCKING_REQUEST_TIMEOUT session_id)
            GRPC_REQUEST_TIMEOUT.

(** The [while True] loop of [create_or_get], by recursion on the replies
    to come. *)
Fixpoint join_loop (layer_id session_id : str)
    (replies : list (result api_pb2.LayerJoinResponse.t)) (log : list call)
    : outcome str * world :=
  let log := log ++ [join_request layer_id session_id] in
  match replies with
  | [] => (Waiting, mkWorld [] log)
  | Raise e :: replies => (Raised e, mkWorld replies log)
  | Ok response :: replies =>
      let result := api_pb2.LayerJoinResponse.result response in
      let status := api_pb2.GenericResult.status result in
      if (status =? 0)%Z then
        join_loop layer_id session_id replies log
      else if (status =? FAILURE)%Z then
        (Raised (RemoteException (api_pb2.GenericResult.exception result)),
         mkWorld replies log)
      else if (status =? SUCCESS)%Z then
        (Done layer_id, mkWorld replies log)
      else
        (Raised (RemoteException ("Unknown status " +:+ str_of_Z status +:+ "!")),
         mkWorld replies log)
  end.

Definition wait_for_layer (layer_id session_id : str) : M str := fun w =>
  join_loop layer_id session_id (join_replies w) (world_log w).

Definition create_or_get (stub : Stub) (session : Session) (self : Layer) : M str :=
  layer_id ←
    (if truthy (tag self) then
       let req := api_pb2.LayerGetByTagRequest.mk (default "" (tag self)) in
       resp ← await (LayerGetByTag req) (stub_LayerGetByTag stub req);
       mret (api_pb2.LayerResponse.layer_id resp)
     else
       base_layer_objs ←
         gather (map (fun layer => (session_finished_at session layer,
                                    await (create_or_get_object layer)
                                          (session_create_or_get_object session layer)))
                     (map snd (base_layers self)));
       let base_layers_pb2s :=
         zip_with (fun docker_tag layer =>
                     api_pb2.BaseLayer.mk docker_tag (default "" (object_id layer)))
                  (map fst (base_layers self)) base_layer_objs in
       let context_file_pb2s :=
         map (fun '(filename, data) => api_pb2.LayerContextFile.mk filename data)
             (context_files self) in
       let layer_definition :=
         api_pb2.Layer.mk base_layers_pb2s (dockerfile_commands self) context_file_pb2s
                          (local_id self) (local self) in
       let req :=
         api_pb2.LayerGetOrCreateRequest.mk (session_id session) layer_definition
                                            (must_create self) in
       resp ← await (LayerGetOrCreate req) (stub_LayerGetOrCreate stub req);
       mret (api_pb2.LayerResponse.layer_id resp));
  wait_for_layer layer_id (session_id session).

End Resolution.

(** ** Further definitions *)

(** The commands [_make_bytes] turns into octets: ASCII texts, and octets. *)
Definition normalisable (c : pyval) : bool :=
  match c with
  | PyStr s => is_ascii s
  | PyBytes _ => true
  | _ => false
  end.

(** The commands that are texts, and those that are ASCII texts. *)
Definition is_str (c : pyval) : bool :=
  match c with
  | PyStr _ => true
  | _ => false
  end.

Definition is_ascii_str (c : pyval) : bool :=
  match c with
  | PyStr s => is_ascii s
  | _ => false
  end.

(** A reply that carries no status yet. *)
Definition is_pending (reply : result api_pb2.LayerJoinResponse.t) : bool :=
  match reply with
  | Ok response =>
      (api_pb2.GenericResult.status (api_pb2.LayerJoinResponse.result response) =? 0)%Z
  | Raise _ => false
  end.

(** The two calls that look a layer up or ask for it to be built. *)
Definition is_request (c : call) : bool :=
  match c with
  | LayerGetByTag _ | LayerGetOrCreate _ => true
  | _ => false
  end.

Definition is_LayerJoin (c : call) : bool :=
  match c with
  | LayerJoin _ _ => true
  | _ => false
  end.

(** The request that [create_or_get] sends for a layer without a tag, once
    the session has handed back the objects of the base layers. *)
Definition get_or_create_request (session : Session) (self : Layer)
    (base_layer_objs : list Layer) : api_pb2.LayerGetOrCreateRequest.t :=
  api_pb2.LayerGetOrCreateRequest.mk (session_id session)
    (api_pb2.Layer.mk
       (zip_with (fun docker_tag layer =>
                    api_pb2.BaseLayer.mk docker_tag (default "" (object_id layer)))
                 (map fst (base_layers self)) base_layer_objs)
       (dockerfile_commands self)
       (map (fun '(filename, data) => api_pb2.LayerContextFile.mk filename data)
            (context_files self))
       (local_id self) (local self))
    (must_create self).

(** ** The proxy tunnel ([modal/_proxy_tunnel.py]) *)

(** The fields of [api_pb2.ProxyInfo] that [proxy_tunnel] reads. *)
Record ProxyInfo := mkProxyInfo {
  proxy_key : str;
  remote_port : Z;
  remote_addr : str;
  elastic_ip : str
}.

(** What happens on the host, in order. *)
Inductive os_event :=
| TempFileCreate (name : str)
| FileWrite (name content : str)
| ProcessSpawn (cmd : list str)
| Sleep (seconds : Z)
| BodyRun
| ProcessKill
| TempFileDelete (name : str).

(** How the host answers: the name of the temporary file or the exception of
    [NamedTemporaryFile], and the exception, if any, of writing the key, of
    [Popen], and of [time.sleep], which an interrupt ends with
    [KeyboardInterrupt]. *)
Record host := mkHost {
  host_tempfile : result str;
  host_write : option exn;
  host_spawn : option exn;
  host_sleep : option exn
}.

(** Host actions: the events so far and a value or an exception. *)
Definition io (A : Type) : Type := list os_event * result A.

#[global] Instance io_ret : MRet io := fun _ a => ([], Ok a).
#[global] Instance io_bind : MBind io := fun _ _ f m =>
  match m with
  | (events, Ok a) => let r := f a in (events ++ r.1, r.2)
  | (events, Raise e) => (events, Raise e)
  end.

(** An action that happens, or raises instead. *)
Definition perform (event : os_event) (failure : option exn) : io unit :=
  match failure with
  | None => ([event], Ok tt)
  | Some e => ([], Raise e)
  end.

(** [try: body finally: cleanup] *)
Definition try_finally {A} (body : io A) (cleanup : io unit) : io A :=
  (body.1 ++ cleanup.1,
   match cleanup.2 with
   | Ok _ => body.2
   | Raise e => Raise e
   end).

(** [with tempfile.NamedTemporaryFile(suffix=".pem") as t: block]: the file
    is removed when the block is left, however it is left. *)
Definition with_NamedTemporaryFile {A} (h : host) (block : str -> io A) : io A :=
  match host_tempfile h with
  | Raise e => ([], Raise e)
  | Ok name =>
      try_finally (_ ← perform (TempFileCreate name) None; block name)
                  (perform (TempFileDelete name) None)
  end.

Definition tunnel_cmd (name : str) (info : ProxyInfo) : list str :=
  ["ssh";
   "-i";
   name;
   "-T";
   "-n";
   "-N";
   "-L";
   str_of_Z (remote_port info) +:+ ":" +:+ remote_addr info +:+ ":"
     +:+ str_of_Z (remote_port info);
   "ubuntu@" +:+ elastic_ip info;
   "-o";
   "StrictHostKeyChecking=no"].

(** [with proxy_tunnel(info): body], with [body] the outcome of the block
    that runs at the [yield].  The wait after [Popen] stands before the
    [try]: when it raises, the [finally] clause is not reached. *)
Definition proxy_tunnel (h : host) (info : option ProxyInfo) (body : result unit) : io unit :=
  match info with
  | None => ([BodyRun], body)
  | Some info =>
      with_NamedTemporaryFile h (fun name =>
        _ ← perform (FileWrite name (proxy_key info)) (host_write h);
        let cmd := tunnel_cmd name info in
        _ ← perform (ProcessSpawn cmd) (host_spawn h);
        _ ← perform (Sleep 3) (host_sleep h);
        try_finally ([BodyRun], body) (perform ProcessKill None))
  end.

Definition count_event (p : os_event -> bool) (events : list os_event) : nat :=
  length (List.filter p events).

Definition is_spawn (ev : os_event) : bool :=
  match ev with ProcessSpawn _ => true | _ => false end.
Definition is_kill (ev : os_event) : bool :=
  match ev with ProcessKill => true | _ => false end.
Definition is_create (ev : os_event) : bool :=
  match ev with TempFileCreate _ => true | _ => false end.
Definition is_delete (ev : os_event) : bool :=
  match ev with TempFileDelete _ => true | _ => false end.
Definition is_body (ev : os_event) : bool :=
  match ev with BodyRun => true | _ => false end.

(** ** Further concrete inputs *)

Module MoreExamples.

(** [DebianSlim("3.10.1")] *)
Definition debian_slim_310 : DebianSlim :=
  mkDebianSlim
    (mkLayer "c:e3b0c44298fc1c149afbf4c8996fb92427ae41e4649b934ca495991b7852b855"
             (Some "python-3.10.1-slim-buster-base") [] [] [] false false None)
    "3.10.1".

(** A session that resolves the layers that have a tag and no others. *)
Definition tags_only_session : Session :=
  mkSession "se-1"
    (fun layer => if truthy (tag layer)
                  then Ok (with_object_id (Some ("la-" +:+ default "" (tag layer))) layer)
                  else Raise (RpcError "not found"))
    (fun _ => O).

(** A session that knows no layer, and takes the longer to say so the
    shorter the layer's [local_id] is. *)
Definition slow_session : Session :=
  mkSession "se-1"
    (fun layer => Raise (RpcError ("not found: " +:+ local_id layer)))
    (fun layer => 10 - String.length (local_id layer)).

(** A remote side that cannot be reached. *)
Definition down_stub : Stub :=
  mkStub (fun _ => Raise (RpcError "unavailable")) (fun _ => Raise (RpcError "unavailable")).

Definition tagged (t : str) : Layer := mkLayer "c:tag" (Some t) [] [] [] false false None.
Definition untagged (id : str) : Layer := mkLayer id None [] [] [] false false None.

(** A layer over two base layers; the session answers for the second
    before it answers for the first. *)
Definition two_unknown_bases : Layer :=
  mkLayer "z" None [("a", untagged "u"); ("b", untagged "long-id")] [] [] false false None.

(** A layer over two base layers with tags. *)
Definition two_tagged_bases : Layer :=
  mkLayer "y" (Some "") [("a", tagged "t1"); ("c", tagged "t2")]
          [list_byte_of_string "RUN ls"] [("f.txt", list_byte_of_string "abc")]
          true false None.

Definition proxy : ProxyInfo := mkProxyInfo "-----BEGIN KEY-----" 5432 "10.0.0.7" "52.1.2.3".

Definition good_host : host := mkHost (Ok "/tmp/tmpa1b2.pem") None None None.
Definition no_ssh_host : host :=
  mkHost (Ok "/tmp/tmpa1b2.pem") None (Some (RpcError "ssh: not found")) None.

(** A host on which the user interrupts the wait after [ssh] has started. *)
Definition interrupted_host : host :=
  mkHost (Ok "/tmp/tmpa1b2.pem") None None (Some KeyboardInterrupt).

End MoreExamples.

(** ** Concrete inputs *)

Module Examples.
#[local] Open Scope Z_scope.

Definition sha := SHA256.hexdigest.

Definition octets (s : str) : bytes := list_byte_of_string s.

(** [Layer(tag="python-3.9.5-slim-buster-base")] *)
Definition slim : Layer :=
  mkLayer "c:e3b0c44298fc1c149afbf4c8996fb92427ae41e4649b934ca495991b7852b855"
          (Some "python-3.9.5-slim-buster-base") [] [] [] false false None.

(** [Layer(dockerfile_commands=[b"FROM scratch"])] *)
Definition scratch : Layer :=
  mkLayer "c:67c4282c6928ae380489b6392127b14bb16d8c2f5ba5fa285a934f4f94387b5e"
          None [] [octets "FROM scratch"] [] false false None.

(** ["a\nb"] *)
Definition a_nl_b : str := String "a" (String newline (String "b" EmptyString)).

Definition two_files : list (str * bytes) := [("x", octets "1"); ("y", octets "2")].
Definition two_files_swapped : list (str * bytes) := [("y", octets "2"); ("x", octets "1")].

(** [Layer(base_layers={"base": slim}, dockerfile_commands=["RUN ls"],
    context_files={"f.txt": b"abc"})] *)
Definition derived : Layer :=
  mkLayer
    ("b:base:(c:e3b0c44298fc1c149afbf4c8996fb92427ae41e4649b934ca495991b7852b855),"
     +:+ "c:f9dd97b1bd195e505854be66f30ff6273daccf0cf6c8f48b6902969e60e8a154,"
     +:+ "f:f.txt:ba7816bf8f01cfea414140de5dae2223b00361a396177a9cb410ff61f20015ad")
    None [("base", slim)] [octets "RUN ls"] [("f.txt", octets "abc")] false false None.

(** The same base layer, another object: this one is resolved. *)
Definition slim_resolved : Layer := with_object_id (Some "la-42") slim.

Definition debian_slim : DebianSlim := mkDebianSlim slim "3.9.5".

(** A remote side that knows every tag and builds on request. *)
Definition stub : Stub :=
  mkStub
    (fun req => Ok (api_pb2.LayerResponse.mk ("la-" +:+ api_pb2.LayerGetByTagRequest.tag req)))
    (fun req => Ok (api_pb2.LayerResponse.mk "la-new")).

Definition session : Session :=
  mkSession "se-1" (fun layer => Ok (with_object_id (Some ("la-" +:+ local_id layer)) layer))
            (fun _ => O).

Definition marker_set : gmap string string :=
  {[ "POLYESTER_IMAGE_LOCAL_ID" := local_id slim; "HOME" := "/root" ]}.

Definition marker_absent : gmap string string := {[ "HOME" := "/root" ]}.

Definition two_bases : list (str * Layer) := [("a", slim); ("b", scratch)].
Definition two_bases_swapped : list (str * Layer) := [("b", scratch); ("a", slim)].
End Examples.

(** * Theorems *)

Example sha256_empty :
  SHA256.hexdigest [] = "e3b0c44298fc1c149afbf4c8996fb92427ae41e4649b934ca495991b7852b855".
Proof. vm_compute. reflexivity. Qed.

Example sha256_abc :
  SHA256.hexdigest (list_byte_of_string "abc")
  = "ba7816bf8f01cfea414140de5dae2223b00361a396177a9cb410ff61f20015ad".
Proof. vm_compute. reflexivity. Qed.

Example sha256_two_blocks :
  SHA256.hexdigest
    (list_byte_of_string "abcdbcdecdefdefgefghfghighijhijkijkljklmklmnlmnomnopnopq")
  = "248d6a61d20638b8e5c026930c3e6039a33ce45964ff2167f6ecedd419db06c1".
Proof. vm_compute. reflexivity. Qed.

Example sha256_round_constants :
  nth 0 SHA256.K 0%Z = 0x428a2f98%Z /\ nth 63 SHA256.K 0%Z = 0xc67178f2%Z
  /\ nth 0 SHA256.H0 0%Z = 0x6a09e667%Z /\ nth 7 SHA256.H0 0%Z = 0x5be0cd19%Z.
Proof. repeat split; reflexivity. Qed.

Example slim_constructed :
  Layer__init__ Examples.sha (Some "python-3.9.5-slim-buster-base") [] [] [] false false
  = Ok Examples.slim.
Proof. vm_compute. reflexivity. Qed.

Example scratch_constructed :
  Layer__init__ Examples.sha None [] [PyStr "FROM scratch"] [] false false
  = Ok Examples.scratch.
Proof. vm_compute. reflexivity. Qed.

(** ** Text *)

Lemma list_ascii_of_string_app (a b : str) :
  list_ascii_of_string (a +:+ b) = list_ascii_of_string a ++ list_ascii_of_string b.
Proof. induction a as [|c a IH]; simpl; [reflexivity | now rewrite IH]. Qed.

Lemma is_ascii_app (a b : str) : is_ascii (a +:+ b) = is_ascii a && is_ascii b.
Proof. unfold is_ascii. now rewrite list_ascii_of_string_app, forallb_app. Qed.

Lemma is_ascii_concat (sep : str) (parts : list str) :
  is_ascii sep = true ->
  is_ascii (String.concat sep parts) = forallb is_ascii parts.
Proof.
  intros Hsep. induction parts as [|p [|q rest] IH].
  - reflexivity.
  - simpl. now rewrite andb_true_r.
  - change (String.concat sep (p :: q :: rest))
      with (p +:+ sep +:+ String.concat sep (q :: rest)).
    rewrite !is_ascii_app, Hsep, IH. reflexivity.
Qed.

(** ** The error monad on lists *)

Lemma mapM_result_cons {A B} (f : A -> result B) (x : A) (l : list A) :
  mapM f (x :: l) =
  match f x with
  | Ok y => match mapM f l with Ok k => Ok (y :: k) | Raise e => Raise e end
  | Raise e => Raise e
  end.
Proof. simpl. destruct (f x); reflexivity. Qed.

Lemma mapM_result_Ok {A B} (f : A -> result B) (l : list A) (k : list B) :
  mapM f l = Ok k <-> Forall2 (fun x y => f x = Ok y) l k.
Proof.
  revert k. induction l as [|x l IH]; intros k.
  - split.
    + intros H. injection H as <-. constructor.
    + intros H. inversion H. reflexivity.
  - rewrite mapM_result_cons. split.
    + destruct (f x) as [y|e] eqn:Hx; [|discriminate].
      destruct (mapM f l) as [k'|e] eqn:Hl; [|discriminate].
      intros H. injection H as <-. constructor; [assumption|]. now apply IH.
    + intros H. inversion H as [|? y ? k' Hx Hl]; subst.
      apply IH in Hl. now rewrite Hx, Hl.
Qed.

(** A failing element, with only succeeding ones before it, decides the
    exception. *)
Lemma mapM_result_Raise {A B} (f : A -> result B) (pre post : list A) (x : A) (e : exn) :
  Forall (fun y => f y = Raise e \/ exists b, f y = Ok b) pre ->
  f x = Raise e ->
  mapM f (pre ++ x :: post) = Raise e.
Proof.
  intros Hpre Hx. induction Hpre as [|y pre [Hy|[b Hy]] _ IH].
  - simpl app. rewrite mapM_result_cons, Hx. reflexivity.
  - simpl app. rewrite mapM_result_cons, Hy. reflexivity.
  - simpl app. rewrite mapM_result_cons, Hy, IH. reflexivity.
Qed.

(** Any failing element makes the whole fail. *)
Lemma mapM_result_fails {A B} (f : A -> result B) (l : list A) (x : A) :
  In x l -> (exists e, f x = Raise e) -> exists e, mapM f l = Raise e.
Proof.
  intros Hin [e Hx]. induction l as [|y l IH]; [contradiction|].
  rewrite mapM_result_cons. destruct Hin as [->|Hin].
  - rewrite Hx. eauto.
  - destruct (f y) as [b|e']; [|eauto].
    destruct (IH Hin) as [e'' ->]. eauto.
Qed.

(** ** Construction *)

Section ConstructionFacts.

(** The digest function: [get_sha256_hex_from_content] in the code. *)
Variable digest : bytes -> str.

Lemma fold_left_append {A B} (g : list B -> A -> list B) (f : A -> B)
    (l : list A) (acc : list B) :
  (forall acc x, g acc x = acc ++ [f x]) ->
  fold_left g l acc = acc ++ map f l.
Proof.
  intros Hg. revert acc. induction l as [|x l IH]; intros acc; simpl.
  - now rewrite app_nil_r.
  - rewrite Hg, IH, <- app_assoc. reflexivity.
Qed.

(** The list built by successive appends is the list the specification
    describes. *)
Lemma local_id_args_spec bl cmds cf :
  String.concat "," (local_id_args digest bl cmds cf) = spec_local_id digest bl cmds cf.
Proof.
  unfold local_id_args, spec_local_id. f_equal.
  rewrite (fold_left_append _
             (fun f : str * bytes => "f:" +:+ f.1 +:+ ":" +:+ digest f.2))
    by (intros acc [filename content]; reflexivity).
  rewrite (fold_left_append _
             (fun b : str * Layer => "b:" +:+ b.1 +:+ ":(" +:+ local_id b.2 +:+ ")"))
    by (intros acc [docker_tag layer]; reflexivity).
  simpl. rewrite <- app_assoc. reflexivity.
Qed.

(** The identity string reads the base layers through their aliases and
    their [local_id] only. *)
Lemma spec_local_id_bases bl1 bl2 cmds cf :
  Forall2 (fun x y => x.1 = y.1 /\ local_id x.2 = local_id y.2) bl1 bl2 ->
  spec_local_id digest bl1 cmds cf = spec_local_id digest bl2 cmds cf.
Proof.
  intros H. unfold spec_local_id. do 2 f_equal.
  induction H as [|x y bl1 bl2 [Ha Hid] _ IH]; simpl; [reflexivity|].
  now rewrite Ha, Hid, IH.
Qed.

(** What the constructor returns, in one equation. *)
Lemma Layer__init__eq tag bl cmds cf mc loc :
  Layer__init__ digest tag bl cmds cf mc loc =
  match mapM _make_bytes cmds with
  | Ok commands =>
      Ok (mkLayer (spec_local_id digest bl commands cf) tag bl commands cf mc loc None)
  | Raise e => Raise e
  end.
Proof.
  unfold Layer__init__.
  destruct (mapM _make_bytes cmds) as [commands|e]; simpl; [|reflexivity].
  now rewrite local_id_args_spec.
Qed.

(** [C1] Every constructed layer carries, as [local_id], the entries
    ["b:<alias>:(<base.local_id>)"] of its base layers in their order, then
    ["c:<digest of the newline-joined commands>"], then the entries
    ["f:<filename>:<digest of content>"] of its context files, joined by
    commas.  The string is fixed at construction: the new layer has no
    remote identifier, whatever remote identifiers the base layers hold
    does not change it, and neither does giving the layer one later. *)
Theorem Layer_local_id_structure tag bl cmds cf mc loc (L : Layer) :
  Layer__init__ digest tag bl cmds cf mc loc = Ok L ->
  exists commands,
    mapM _make_bytes cmds = Ok commands
    /\ dockerfile_commands L = commands
    /\ local_id L =
         String.concat ","
           (map (fun b => "b:" +:+ b.1 +:+ ":(" +:+ local_id b.2 +:+ ")") bl
            ++ ["c:" +:+ digest
                           (bytes_join [byte_of_ascii newline] commands)]
            ++ map (fun f => "f:" +:+ f.1 +:+ ":" +:+ digest f.2) cf)
    /\ object_id L = None
    /\ (forall oids : Layer -> option str,
          exists L',
            Layer__init__ digest tag (map (fun b => (b.1, with_object_id (oids b.2) b.2)) bl)
                          cmds cf mc loc = Ok L'
            /\ local_id L' = local_id L)
    /\ (forall oid, local_id (with_object_id oid L) = local_id L).
Proof.
  rewrite Layer__init__eq.
  destruct (mapM _make_bytes cmds) as [commands|e] eqn:Hcmds; [|discriminate].
  intros H. injection H as <-. exists commands. simpl.
  repeat split.
  intros oids. eexists. split.
  - rewrite Layer__init__eq, Hcmds. reflexivity.
  - simpl. apply spec_local_id_bases.
    induction bl as [|[a b] bl IH]; constructor; auto.
Qed.

(** [C4], amended.  Two layers built from base-layer mappings that list the
    same aliases in the same order with base layers of equal [local_id]
    (structurally identical ones in particular, whichever objects they
    are), from the same commands and from context files listed in the same
    order, have the same [local_id]; tag and flags play no part. *)
Theorem Layer_local_id_same_derivation
    tag1 tag2 bl1 bl2 cmds cf mc1 mc2 loc1 loc2 (L1 L2 : Layer) :
  Forall2 (fun x y => x.1 = y.1 /\ local_id x.2 = local_id y.2) bl1 bl2 ->
  Layer__init__ digest tag1 bl1 cmds cf mc1 loc1 = Ok L1 ->
  Layer__init__ digest tag2 bl2 cmds cf mc2 loc2 = Ok L2 ->
  local_id L1 = local_id L2.
Proof.
  intros Hbl. rewrite !Layer__init__eq.
  destruct (mapM _make_bytes cmds) as [commands|e]; [|discriminate].
  intros H1 H2. injection H1 as <-. injection H2 as <-. simpl.
  now apply spec_local_id_bases.
Qed.

(** [C9] The one-command sequence ["a\nb"] and the two-command sequence
    ["a", "b"] join to the same octets, so they have the same commands
    digest, and two layers that differ in nothing but these command lists
    have the same [local_id]. *)
Theorem commands_digest_collision tag bl cf mc loc :
  [PyStr Examples.a_nl_b] <> [PyStr "a"; PyStr "b"]
  /\ exists L1 L2,
       Layer__init__ digest tag bl [PyStr Examples.a_nl_b] cf mc loc = Ok L1
       /\ Layer__init__ digest tag bl [PyStr "a"; PyStr "b"] cf mc loc = Ok L2
       /\ dockerfile_commands L1 <> dockerfile_commands L2
       /\ digest (bytes_join [byte_of_ascii newline] (dockerfile_commands L1))
          = digest (bytes_join [byte_of_ascii newline] (dockerfile_commands L2))
       /\ local_id L1 = local_id L2.
Proof.
  split; [discriminate|].
  do 2 eexists. rewrite !Layer__init__eq.
  repeat split; simpl; discriminate.
Qed.

Lemma make_bytes_ascii_form c b : ascii_form c b -> _make_bytes c = Ok b.
Proof. intros [s Hs|b']; simpl; [unfold encode_ascii; now rewrite Hs | reflexivity]. Qed.

Lemma make_bytes_Ok_ascii_form c b : _make_bytes c = Ok b -> ascii_form c b.
Proof.
  destruct c as [s|b'| |]; simpl; try discriminate.
  - unfold encode_ascii. destruct (is_ascii s) eqn:Hs; [|discriminate].
    intros [= <-]. now constructor.
  - intros [= <-]. constructor.
Qed.

Lemma make_bytes_rejects c :
  accepted_form c = false -> _make_bytes c = Raise AssertionError.
Proof. destruct c; simpl; congruence. Qed.

Lemma make_bytes_accepted c :
  accepted_form c = true ->
  _make_bytes c = Raise UnicodeEncodeError \/ exists b, _make_bytes c = Ok b.
Proof.
  destruct c as [s|b| |]; simpl; try discriminate; intros _.
  - unfold encode_ascii. destruct (is_ascii s); eauto.
  - eauto.
Qed.

Lemma make_bytes_errors c e :
  _make_bytes c = Raise e -> e = AssertionError \/ e = UnicodeEncodeError.
Proof.
  destruct c as [s|b| |]; simpl; try (intros [= <-]; auto); try discriminate.
  unfold encode_ascii. destruct (is_ascii s); [discriminate|]. intros [= <-]. auto.
Qed.

Lemma mapM_make_bytes_errors cmds e :
  mapM _make_bytes cmds = Raise e -> e = AssertionError \/ e = UnicodeEncodeError.
Proof.
  induction cmds as [|c cmds IH]; [discriminate|].
  rewrite mapM_result_cons.
  destruct (_make_bytes c) as [b|e'] eqn:Hc.
  - destruct (mapM _make_bytes cmds) as [k|e'']; [discriminate|].
    intros [= <-]. now apply IH.
  - intros [= <-]. eapply make_bytes_errors, Hc.
Qed.

Lemma mapM_make_bytes_octets (bs : list bytes) :
  mapM _make_bytes (map PyBytes bs) = Ok bs.
Proof.
  apply mapM_result_Ok. induction bs; constructor; auto.
Qed.

(** [C6] A command sequence of texts and octets is normalised to octets,
    a text to its ASCII encoding, before hashing: the layer is the very
    one obtained by supplying every command as octets, with the same
    [local_id]; and whenever the constructor returns a layer, the commands
    it holds are the given ones in that form.  A sequence with a command that
    is neither text nor octets makes the constructor raise; the constructor
    is a function of its arguments alone and has no stub to call. *)
Theorem commands_normalised tag bl cf mc loc :
  (forall cmds bs,
      Forall2 ascii_form cmds bs ->
      exists L,
        Layer__init__ digest tag bl cmds cf mc loc = Ok L
        /\ Layer__init__ digest tag bl (map PyBytes bs) cf mc loc = Ok L
        /\ dockerfile_commands L = bs
        /\ local_id L = spec_local_id digest bl bs cf)
  /\ (forall cmds L,
        Layer__init__ digest tag bl cmds cf mc loc = Ok L ->
        Forall2 ascii_form cmds (dockerfile_commands L)
        /\ Layer__init__ digest tag bl (map PyBytes (dockerfile_commands L)) cf mc loc = Ok L)
  /\ (forall cmds c,
        In c cmds -> accepted_form c = false ->
        exists e,
          Layer__init__ digest tag bl cmds cf mc loc = Raise e
          /\ (e = AssertionError \/ e = UnicodeEncodeError)).
Proof.
  split; [|split].
  - intros cmds bs Hforms.
    assert (Hcmds : mapM _make_bytes cmds = Ok bs).
    { apply mapM_result_Ok.
      induction Hforms; constructor; auto using make_bytes_ascii_form. }
    eexists. rewrite !Layer__init__eq, Hcmds, mapM_make_bytes_octets.
    repeat split.
  - intros cmds L. rewrite Layer__init__eq.
    destruct (mapM _make_bytes cmds) as [bs|e] eqn:Hcmds; [|discriminate].
    intros [= <-]. cbn [dockerfile_commands]. split.
    + apply mapM_result_Ok in Hcmds.
      induction Hcmds; constructor; auto using make_bytes_Ok_ascii_form.
    + now rewrite Layer__init__eq, mapM_make_bytes_octets.
  - intros cmds c Hin Hc.
    destruct (mapM_result_fails _make_bytes cmds c Hin) as [e He].
    { exists AssertionError. now apply make_bytes_rejects. }
    exists e. rewrite Layer__init__eq, He. split; [reflexivity|].
    eapply mapM_make_bytes_errors, He.
Qed.

(** [C10] A command given as text with a character outside ASCII makes the
    constructor raise: [UnicodeEncodeError], whatever follows the command,
    when the commands before it are texts or octets; and an exception in any
    case.  The constructor is a function of its arguments alone and has no
    stub to call. *)
Theorem non_ascii_text_raises tag bl cf mc loc s :
  is_ascii s = false ->
  (forall pre post,
      Forall (fun c => accepted_form c = true) pre ->
      Layer__init__ digest tag bl (pre ++ PyStr s :: post) cf mc loc
      = Raise UnicodeEncodeError)
  /\ (forall cmds,
        In (PyStr s) cmds ->
        exists e, Layer__init__ digest tag bl cmds cf mc loc = Raise e).
Proof.
  intros Hs.
  assert (Hraise : _make_bytes (PyStr s) = Raise UnicodeEncodeError).
  { simpl. unfold encode_ascii. now rewrite Hs. }
  split.
  - intros pre post Hpre. rewrite Layer__init__eq.
    rewrite (mapM_result_Raise _make_bytes pre post (PyStr s) UnicodeEncodeError).
    + reflexivity.
    + eapply Forall_impl; [exact Hpre|]. intros c Hc. simpl. now apply make_bytes_accepted.
    + exact Hraise.
  - intros cmds Hin.
    destruct (mapM_result_fails _make_bytes cmds (PyStr s) Hin) as [e He]; [eauto|].
    exists e. now rewrite Layer__init__eq, He.
Qed.

Lemma mapM_make_bytes_text (texts : list str) :
  forallb is_ascii texts = true ->
  mapM _make_bytes (map PyStr texts) = Ok (map list_byte_of_string texts).
Proof.
  intros H. apply mapM_result_Ok.
  induction texts as [|t texts IH]; cbn [map forallb] in *; constructor.
  - apply andb_true_iff in H as [Ht _]. cbn [_make_bytes]. unfold encode_ascii. now rewrite Ht.
  - apply andb_true_iff in H as [_ H]. now apply IH.
Qed.

Lemma wheel_script_ascii pkgs find_links :
  forallb is_ascii (wheel_script pkgs find_links)
  = forallb is_ascii pkgs && (negb (truthy find_links) || is_ascii (default "" find_links)).
Proof.
  unfold wheel_script. cbn [forallb].
  rewrite !is_ascii_app, (is_ascii_concat " " pkgs) by reflexivity.
  change (is_ascii "RUN pip wheel ") with true.
  change (is_ascii " -w /tmp/wheels ") with true.
  change (is_ascii "FROM builder as builder-vehicle") with true.
  change (is_ascii "FROM base") with true.
  change (is_ascii "COPY --from=builder-vehicle /tmp/wheels /tmp/wheels") with true.
  change (is_ascii "RUN pip install /tmp/wheels/*") with true.
  change (is_ascii "RUN rm -rf /tmp/wheels") with true.
  destruct (truthy find_links); cbn [andb orb negb].
  - rewrite is_ascii_app. change (is_ascii "-f ") with true. cbn [andb].
    now rewrite !andb_true_r.
  - change (is_ascii "") with true. now rewrite !andb_true_r.
Qed.

Lemma add_python_packages_eq self pkgs find_links :
  add_python_packages digest self pkgs find_links =
  Layer__init__ digest None
    [("base", as_layer self);
     ("builder",
      mkLayer (spec_local_id digest [] [] [])
              (Some ("python-" +:+ python_version self +:+ "-slim-buster-builder"))
              [] [] [] false false None)]
    (map PyStr (wheel_script pkgs find_links)) [] false false.
Proof. unfold add_python_packages. rewrite Layer__init__eq. reflexivity. Qed.

(** [C8], amended.  For a package list of ASCII names (and an ASCII
    [find_links], when one is given), [add_python_packages] returns a layer
    over two base layers, the receiver under ["base"] and a layer that has a
    tag and nothing else under ["builder"], whose commands build the wheels in
    the builder stage, copy them into the base stage and install them there.
    Nothing is resolved: neither the new layer nor the builder has a remote
    identifier, and the receiver is taken as it is. *)
Theorem add_python_packages_two_stage self pkgs find_links :
  forallb is_ascii pkgs = true ->
  is_ascii (default "" find_links) = true ->
  exists builder L,
    add_python_packages digest self pkgs find_links = Ok L
    /\ Layer__init__ digest
         (Some ("python-" +:+ python_version self +:+ "-slim-buster-builder"))
         [] [] [] false false = Ok builder
    /\ base_layers builder = [] /\ dockerfile_commands builder = []
    /\ context_files builder = [] /\ object_id builder = None
    /\ tag L = None
    /\ base_layers L = [("base", as_layer self); ("builder", builder)]
    /\ dockerfile_commands L =
         map list_byte_of_string
           ["FROM builder as builder-vehicle";
            "RUN pip wheel " +:+ String.concat " " pkgs +:+ " -w /tmp/wheels "
              +:+ (if truthy find_links then "-f " +:+ default "" find_links else "");
            "FROM base";
            "COPY --from=builder-vehicle /tmp/wheels /tmp/wheels";
            "RUN pip install /tmp/wheels/*";
            "RUN rm -rf /tmp/wheels"]
    /\ context_files L = []
    /\ object_id L = None.
Proof.
  intros Hpkgs Hlinks.
  rewrite add_python_packages_eq, !Layer__init__eq.
  rewrite mapM_make_bytes_text.
  - do 2 eexists. repeat split.
  - rewrite wheel_script_ascii, Hpkgs, Hlinks. now rewrite orb_true_r.
Qed.

(** A name outside ASCII in the package list makes the operation raise. *)
Lemma add_python_packages_non_ascii self pkgs find_links :
  forallb is_ascii pkgs = false ->
  add_python_packages digest self pkgs find_links = Raise UnicodeEncodeError.
Proof.
  intros Hpkgs. rewrite add_python_packages_eq, Layer__init__eq.
  change (map PyStr (wheel_script pkgs find_links))
    with ([PyStr "FROM builder as builder-vehicle"]
          ++ PyStr (nth 1 (wheel_script pkgs find_links) "")
          :: map PyStr (skipn 2 (wheel_script pkgs find_links))).
  rewrite (mapM_result_Raise _make_bytes _ _ _ UnicodeEncodeError); [reflexivity| |].
  - constructor; [|constructor]. right. eexists. reflexivity.
  - cbn [nth wheel_script _make_bytes]. unfold encode_ascii.
    rewrite !is_ascii_app, (is_ascii_concat " " pkgs), Hpkgs by reflexivity.
    now rewrite andb_false_r.
Qed.

End ConstructionFacts.

(** ** Containment check *)

Lemma opt_str_eq_true (o : option str) (s : str) : opt_str_eq o s = true <-> o = Some s.
Proof.
  destruct o as [v|]; simpl.
  - rewrite String.eqb_eq. split; congruence.
  - split; discriminate.
Qed.

(** [C7] [is_inside] answers [true] exactly when the environment holds the
    marker with the layer's [local_id] as its value, and [false] otherwise:
    when the marker holds another value, and when the environment has no
    marker. *)
Theorem is_inside_marker (environ : gmap string string) (self : Layer) :
  (is_inside environ self = true
   <-> environ !! "POLYESTER_IMAGE_LOCAL_ID" = Some (local_id self))
  /\ (is_inside environ self = false
      <-> environ !! "POLYESTER_IMAGE_LOCAL_ID" <> Some (local_id self))
  /\ (environ !! "POLYESTER_IMAGE_LOCAL_ID" = None -> is_inside environ self = false).
Proof.
  unfold is_inside, os_getenv.
  destruct (environ !! "POLYESTER_IMAGE_LOCAL_ID") as [v|]; simpl.
  - destruct (String.eqb_spec v (local_id self)) as [->|Hne];
      intuition (congruence || discriminate).
  - intuition (congruence || discriminate).
Qed.

(** ** Resolution *)

Section ResolutionFacts.

Variables SUCCESS FAILURE : Z.
Variables BLOCKING_REQUEST_TIMEOUT GRPC_REQUEST_TIMEOUT : Z.

#[local] Abbreviation join_call :=
  (join_request BLOCKING_REQUEST_TIMEOUT GRPC_REQUEST_TIMEOUT).
#[local] Abbreviation join :=
  (join_loop SUCCESS FAILURE BLOCKING_REQUEST_TIMEOUT GRPC_REQUEST_TIMEOUT).
#[local] Abbreviation wait :=
  (wait_for_layer SUCCESS FAILURE BLOCKING_REQUEST_TIMEOUT GRPC_REQUEST_TIMEOUT).
#[local] Abbreviation resolve :=
  (create_or_get SUCCESS FAILURE BLOCKING_REQUEST_TIMEOUT GRPC_REQUEST_TIMEOUT).

(** A reply without a status keeps the loop going: one more call, and the
    rest of the script decides. *)
Lemma join_loop_pending layer_id sid e replies log :
  join layer_id sid (join_reply 0 e :: replies) log
  = join layer_id sid replies (log ++ [join_call layer_id sid]).
Proof. reflexivity. Qed.

Lemma join_loop_pending_prefix layer_id sid n e replies log :
  join layer_id sid (replicate n (join_reply 0 e) ++ replies) log
  = join layer_id sid replies (log ++ replicate n (join_call layer_id sid)).
Proof.
  revert log. induction n as [|n IH]; intros log.
  - simpl. now rewrite app_nil_r.
  - cbn [replicate app]. rewrite join_loop_pending, IH, <- app_assoc. reflexivity.
Qed.

Lemma replicate_snoc {A} (n : nat) (x : A) : replicate n x ++ [x] = replicate (S n) x.
Proof. induction n as [|n IH]; [reflexivity|]. cbn [replicate app]. now rewrite IH. Qed.

(** Replies without a status are skipped, one call each. *)
Lemma join_loop_skips_pending layer_id sid pre replies log :
  forallb is_pending pre = true ->
  join layer_id sid (pre ++ replies) log
  = join layer_id sid replies (log ++ replicate (length pre) (join_call layer_id sid)).
Proof.
  revert log. induction pre as [|[response|e] pre IH]; intros log Hpre.
  - cbn. now rewrite app_nil_r.
  - cbn [forallb is_pending] in Hpre. apply andb_true_iff in Hpre as [Hp Hpre].
    cbn [app join_loop]. rewrite Hp, IH by assumption.
    cbn [length replicate]. now rewrite <- app_assoc.
  - discriminate.
Qed.

Lemma join_loop_failure layer_id sid d replies log :
  FAILURE <> 0%Z ->
  join layer_id sid (join_reply FAILURE d :: replies) log
  = (Raised (RemoteException d), mkWorld replies (log ++ [join_call layer_id sid])).
Proof.
  intros HF. cbn. apply Z.eqb_neq in HF. rewrite HF, Z.eqb_refl. reflexivity.
Qed.

Lemma join_loop_success layer_id sid e replies log :
  SUCCESS <> 0%Z -> SUCCESS <> FAILURE ->
  join layer_id sid (join_reply SUCCESS e :: replies) log
  = (Done layer_id, mkWorld replies (log ++ [join_call layer_id sid])).
Proof.
  intros HS HSF. cbn. apply Z.eqb_neq in HS, HSF. rewrite HS, HSF, Z.eqb_refl. reflexivity.
Qed.

Lemma join_loop_unknown layer_id sid s e replies log :
  s <> 0%Z -> s <> FAILURE -> s <> SUCCESS ->
  join layer_id sid (join_reply s e :: replies) log
  = (Raised (RemoteException ("Unknown status " +:+ str_of_Z s +:+ "!")),
     mkWorld replies (log ++ [join_call layer_id sid])).
Proof.
  intros H0 HF HS. cbn. apply Z.eqb_neq in H0, HF, HS. rewrite H0, HF, HS. reflexivity.
Qed.

(** Whatever the script, the loop issues join calls for its handle and
    nothing else, at least one, and can only return that handle. *)
Lemma join_loop_calls layer_id sid replies log :
  exists n,
    world_log (join layer_id sid replies log).2
    = log ++ replicate (S n) (join_call layer_id sid)
    /\ (forall id, (join layer_id sid replies log).1 = Done id -> id = layer_id)
    /\ join_replies (join layer_id sid replies log).2 = drop (S n) replies.
Proof.
  revert log. induction replies as [|[response|e] replies IH]; intros log.
  - exists O. cbn. repeat split. discriminate.
  - cbn [join_loop].
    destruct (api_pb2.GenericResult.status (api_pb2.LayerJoinResponse.result response) =? 0)%Z.
    + destruct (IH (log ++ [join_call layer_id sid])) as (n & Hlog & Hout & Hrest).
      exists (S n). rewrite Hlog, Hrest, <- app_assoc. repeat split. exact Hout.
    + exists O.
      destruct (api_pb2.GenericResult.status (api_pb2.LayerJoinResponse.result response)
                =? FAILURE)%Z; [cbn; repeat split; discriminate|].
      destruct (api_pb2.GenericResult.status (api_pb2.LayerJoinResponse.result response)
                =? SUCCESS)%Z; cbn; repeat split; try discriminate.
      now intros id [= <-].
  - exists O. cbn. repeat split. discriminate.
Qed.


(** After any number of replies without a status, an unknown status still
    ends the loop at once. *)
Lemma join_loop_unknown_after_pending layer_id sid n e s d rest log :
  s <> 0%Z -> s <> SUCCESS -> s <> FAILURE ->
  wait layer_id sid (mkWorld (replicate n (join_reply 0 e) ++ join_reply s d :: rest) log)
  = (Raised (RemoteException ("Unknown status " +:+ str_of_Z s +:+ "!")),
     mkWorld rest (log ++ replicate (S n) (join_call layer_id sid))).
Proof.
  intros H0 HnS HnF. unfold wait_for_layer. cbn [join_replies world_log].
  rewrite join_loop_pending_prefix, join_loop_unknown by assumption.
  rewrite <- app_assoc. do 3 f_equal.
  clear. induction n as [|n IH]; [reflexivity|]. cbn [replicate app]. now rewrite IH.
Qed.

(** While the replies last without a status, the loop goes on calling and
    does not return. *)
Lemma join_loop_only_pending layer_id sid n e log :
  wait layer_id sid (mkWorld (replicate n (join_reply 0 e)) log)
  = (Waiting, mkWorld [] (log ++ replicate (S n) (join_call layer_id sid))).
Proof.
  unfold wait_for_layer. cbn [join_replies world_log].
  rewrite <- (app_nil_r (replicate n _)), join_loop_pending_prefix. cbn.
  rewrite <- app_assoc. do 3 f_equal.
  clear. induction n as [|n IH]; [reflexivity|]. cbn [replicate app]. now rewrite IH.
Qed.

Lemma truthy_Some o : truthy o = true -> exists t, o = Some t /\ t <> "".
Proof.
  destruct o as [t|]; [|discriminate]. simpl. intros H. exists t. split; [reflexivity|].
  intros ->. discriminate.
Qed.

(** A layer with a tag is resolved by the tag lookup followed by the join
    loop on the identifier the lookup returned. *)
Lemma create_or_get_tagged stub session self t w :
  tag self = Some t -> t <> "" ->
  resolve stub session self w =
  match stub_LayerGetByTag stub (api_pb2.LayerGetByTagRequest.mk t) with
  | Ok resp =>
      join (api_pb2.LayerResponse.layer_id resp) (session_id session) (join_replies w)
           (world_log w ++ [LayerGetByTag (api_pb2.LayerGetByTagRequest.mk t)])
  | Raise e =>
      (Raised e,
       mkWorld (join_replies w)
               (world_log w ++ [LayerGetByTag (api_pb2.LayerGetByTagRequest.mk t)]))
  end.
Proof.
  intros Htag Ht. unfold create_or_get. rewrite Htag. cbn [truthy default].
  destruct (String.eqb_spec t "") as [|_]; [contradiction|]. cbn [negb].
  unfold mbind, M_bind, mret, M_ret, await, wait_for_layer.
  destruct (stub_LayerGetByTag stub _) as [resp|e]; reflexivity.
Qed.

(** What [gather] starts for the base layers: every call is made, in the
    order of the mapping, and each ends as the session decides. *)
Lemma gather_start_create_or_get_object session (layers : list Layer) w :
  gather_start (map (fun layer => (session_finished_at session layer,
                                   await (create_or_get_object layer)
                                         (session_create_or_get_object session layer)))
                    layers) w
  = (map (fun layer => (session_finished_at session layer,
                        match session_create_or_get_object session layer with
                        | Ok obj => Done obj
                        | Raise e => Raised e
                        end)) layers,
     mkWorld (join_replies w) (world_log w ++ map create_or_get_object layers)).
Proof.
  revert w. induction layers as [|layer layers IH]; intros [replies log].
  - cbn. now rewrite app_nil_r.
  - cbn [map gather_start]. rewrite IH. unfold await. cbn. now rewrite <- app_assoc.
Qed.

(** The session is handed every base layer, in the order of the mapping,
    whether or not one of the calls raises. *)
Lemma gather_create_or_get_object session (layers : list Layer) w :
  (gather (map (fun layer => (session_finished_at session layer,
                              await (create_or_get_object layer)
                                    (session_create_or_get_object session layer)))
               layers) w).2
  = mkWorld (join_replies w) (world_log w ++ map create_or_get_object layers).
Proof. unfold gather. cbn [snd]. now rewrite gather_start_create_or_get_object. Qed.

Lemma gather_create_or_get_object_done session (layers objs : list Layer) w :
  mapM (session_create_or_get_object session) layers = Ok objs ->
  (gather (map (fun layer => (session_finished_at session layer,
                              await (create_or_get_object layer)
                                    (session_create_or_get_object session layer)))
               layers) w).1
  = Done objs.
Proof.
  unfold gather. cbn [fst]. rewrite gather_start_create_or_get_object. cbn [fst].
  revert objs. induction layers as [|layer layers IH]; intros objs.
  - intros [= <-]. reflexivity.
  - rewrite mapM_result_cons.
    destruct (session_create_or_get_object session layer) as [obj|e] eqn:Hobj; [|discriminate].
    destruct (mapM (session_create_or_get_object session) layers) as [objs'|e] eqn:Hobjs;
      [|discriminate].
    intros [= <-]. specialize (IH objs' eq_refl).
    cbn [map first_raised gathered_values]. rewrite Hobj.
    destruct (first_raised _) as [[t e]|]; [discriminate|]. now rewrite IH.
Qed.

(** A layer without a tag: the session resolves the base layers, one
    [LayerGetOrCreate] request carries the definition with their
    identifiers, and the join loop runs on the handle that comes back. *)
Lemma create_or_get_untagged stub session self objs w :
  truthy (tag self) = false ->
  mapM (session_create_or_get_object session) (map snd (base_layers self)) = Ok objs ->
  let req :=
    api_pb2.LayerGetOrCreateRequest.mk (session_id session)
      (api_pb2.Layer.mk
         (zip_with (fun docker_tag layer =>
                      api_pb2.BaseLayer.mk docker_tag (default "" (object_id layer)))
                   (map fst (base_layers self)) objs)
         (dockerfile_commands self)
         (map (fun f => api_pb2.LayerContextFile.mk f.1 f.2) (context_files self))
         (local_id self) (local self))
      (must_create self) in
  let log := world_log w ++ map create_or_get_object (map snd (base_layers self))
                         ++ [LayerGetOrCreate req] in
  resolve stub session self w =
  match stub_LayerGetOrCreate stub req with
  | Ok resp =>
      join (api_pb2.LayerResponse.layer_id resp) (session_id session) (join_replies w) log
  | Raise e => (Raised e, mkWorld (join_replies w) log)
  end.
Proof.
  intros Htag Hobjs req log. unfold create_or_get. rewrite Htag.
  unfold mbind, M_bind at 1 2.
  pose proof (gather_create_or_get_object session (map snd (base_layers self)) w) as Hw.
  pose proof (gather_create_or_get_object_done session _ objs w Hobjs) as Ho.
  destruct (gather _ w) as [out w']. cbn [fst snd] in Hw, Ho. subst out w'.
  replace (map (fun '(filename, data) => api_pb2.LayerContextFile.mk filename data)
               (context_files self))
    with (map (fun f : str * bytes => api_pb2.LayerContextFile.mk f.1 f.2) (context_files self))
    by (apply map_ext; now intros [? ?]).
  fold req. unfold M_bind, mret, M_ret, await, wait_for_layer.
  cbn [join_replies world_log]. subst log. rewrite <- app_assoc.
  destruct (stub_LayerGetOrCreate stub req) as [resp|e]; reflexivity.
Qed.

(** The three outcomes of [C2], seen from [create_or_get] on a layer with a
    tag the remote side knows. *)
Lemma create_or_get_tagged_success stub session self t resp e1 e2 e3 rest log :
  SUCCESS <> 0%Z -> SUCCESS <> FAILURE ->
  tag self = Some t -> t <> "" ->
  stub_LayerGetByTag stub (api_pb2.LayerGetByTagRequest.mk t) = Ok resp ->
  resolve stub session self
          (mkWorld (join_reply 0 e1 :: join_reply 0 e2 :: join_reply SUCCESS e3 :: rest) log)
  = (Done (api_pb2.LayerResponse.layer_id resp),
     mkWorld rest
       (log ++ LayerGetByTag (api_pb2.LayerGetByTagRequest.mk t)
            :: replicate 3 (join_call (api_pb2.LayerResponse.layer_id resp)
                                      (session_id session)))).
Proof.
  intros HS HSF Htag Ht Hresp.
  rewrite (create_or_get_tagged stub session self t _ Htag Ht), Hresp.
  cbn [join_replies world_log].
  rewrite !join_loop_pending, join_loop_success by assumption.
  now rewrite <- !app_assoc.
Qed.

(** [C5] Resolving a layer whose tag is a non-empty string [t] issues one
    [LayerGetByTag] request for [t] and after it only join calls: no
    [LayerGetOrCreate] request, and no base layer handed to the session.
    When the lookup raises, the resolution raises the same exception and
    nothing more is asked.  When the lookup answers, its [layer_id] is the
    handle of every join call, at least one is made, and it is the only
    value the resolution can return; it is returned, with the later replies
    left unread, as soon as a reply with the status SUCCESS follows replies
    without a status, and [RemoteException] with the remote diagnostic is
    raised when the first reply with a status says FAILURE. *)
Theorem tagged_layer_resolution stub session self t w :
  tag self = Some t -> t <> "" ->
  let req := api_pb2.LayerGetByTagRequest.mk t in
  let sid := session_id session in
  (exists joins,
     world_log (resolve stub session self w).2 = world_log w ++ LayerGetByTag req :: joins
     /\ Forall (fun c => is_LayerGetOrCreate c = false /\ is_create_or_get_object c = false)
               (LayerGetByTag req :: joins)
     /\ forallb is_LayerJoin joins = true)
  /\ (forall e,
        stub_LayerGetByTag stub req = Raise e ->
        resolve stub session self w
        = (Raised e, mkWorld (join_replies w) (world_log w ++ [LayerGetByTag req])))
  /\ (forall resp,
        stub_LayerGetByTag stub req = Ok resp ->
        let layer_id := api_pb2.LayerResponse.layer_id resp in
        (exists n,
           world_log (resolve stub session self w).2
           = world_log w ++ LayerGetByTag req :: replicate (S n) (join_call layer_id sid)
           /\ join_replies (resolve stub session self w).2 = drop (S n) (join_replies w))
        /\ (forall id, (resolve stub session self w).1 = Done id -> id = layer_id)
        /\ (forall pre d rest,
              SUCCESS <> 0%Z -> SUCCESS <> FAILURE ->
              forallb is_pending pre = true ->
              join_replies w = pre ++ join_reply SUCCESS d :: rest ->
              resolve stub session self w
              = (Done layer_id,
                 mkWorld rest
                   (world_log w ++ LayerGetByTag req
                      :: replicate (S (length pre)) (join_call layer_id sid))))
        /\ (forall pre d rest,
              FAILURE <> 0%Z ->
              forallb is_pending pre = true ->
              join_replies w = pre ++ join_reply FAILURE d :: rest ->
              resolve stub session self w
              = (Raised (RemoteException d),
                 mkWorld rest
                   (world_log w ++ LayerGetByTag req
                      :: replicate (S (length pre)) (join_call layer_id sid))))).
Proof.
  intros Htag Ht req sid.
  rewrite (create_or_get_tagged stub session self t w Htag Ht). fold req sid.
  split; [|split].
  - destruct (stub_LayerGetByTag stub req) as [resp|e].
    + destruct (join_loop_calls (api_pb2.LayerResponse.layer_id resp) sid (join_replies w)
                  (world_log w ++ [LayerGetByTag req])) as (n & Hlog & _ & _).
      exists (replicate (S n) (join_call (api_pb2.LayerResponse.layer_id resp) sid)).
      split; [now rewrite Hlog, <- app_assoc|]. split.
      * constructor; [split; reflexivity|]. apply Forall_replicate. split; reflexivity.
      * clear. induction n as [|n IH]; [reflexivity|exact IH].
    + exists []. cbn. repeat split. repeat constructor.
  - now intros e ->.
  - intros resp -> layer_id. cbv beta iota. fold layer_id. split; [|split; [|split]].
    + destruct (join_loop_calls layer_id sid (join_replies w)
                  (world_log w ++ [LayerGetByTag req])) as (n & Hlog & _ & Hrest).
      exists n. split; [now rewrite Hlog, <- app_assoc|exact Hrest].
    + destruct (join_loop_calls layer_id sid (join_replies w)
                  (world_log w ++ [LayerGetByTag req])) as (n & _ & Hout & _).
      exact Hout.
    + intros pre d rest HS HSF Hpre ->.
      rewrite join_loop_skips_pending, join_loop_success by assumption.
      now rewrite <- !app_assoc, replicate_snoc.
    + intros pre d rest HF Hpre ->.
      rewrite join_loop_skips_pending, join_loop_failure by assumption.
      now rewrite <- !app_assoc, replicate_snoc.
Qed.

End ResolutionFacts.

(** ** The theorems at concrete inputs *)

Section Concrete.

Import Examples.

#[local] Abbreviation SUCCESS := 1%Z.
#[local] Abbreviation FAILURE := 2%Z.
#[local] Abbreviation BLOCKING_REQUEST_TIMEOUT := 40%Z.
#[local] Abbreviation GRPC_REQUEST_TIMEOUT := 45%Z.

Lemma Layer_local_id_structure_witness :
  Layer__init__ sha None [("base", slim)] [PyStr "RUN ls"] [("f.txt", octets "abc")]
                false false = Ok derived
  /\ local_id derived
     = String.concat ","
         ["b:base:(" +:+ local_id slim +:+ ")";
          "c:" +:+ sha (octets "RUN ls");
          "f:f.txt:" +:+ sha (octets "abc")].
Proof.
  assert (H : Layer__init__ sha None [("base", slim)] [PyStr "RUN ls"]
                            [("f.txt", octets "abc")] false false = Ok derived)
    by (vm_compute; reflexivity).
  split; [exact H|].
  destruct (Layer_local_id_structure sha _ _ _ _ _ _ _ H) as (commands & Hc & _ & Hid & _).
  vm_compute in Hc. injection Hc as <-.
  rewrite Hid. vm_compute. reflexivity.
Defined.

(** [C4], as stated, fails: the same two base layers under the same two
    aliases, entered in the other order, give another [local_id]; so do the
    same two context files entered in the other order. *)
Lemma Layer_local_id_order_counterexample :
  NoDup (map fst two_bases) /\ NoDup (map fst two_files)
  /\ Permutation two_bases two_bases_swapped
  /\ Permutation two_files two_files_swapped
  /\ exists L1 L2 L3,
       Layer__init__ sha None two_bases [] two_files false false = Ok L1
       /\ Layer__init__ sha None two_bases_swapped [] two_files false false = Ok L2
       /\ Layer__init__ sha None two_bases [] two_files_swapped false false = Ok L3
       /\ local_id L1 <> local_id L2
       /\ local_id L1 <> local_id L3.
Proof.
  split; [apply (bool_decide_unpack _); vm_compute; exact I|].
  split; [apply (bool_decide_unpack _); vm_compute; exact I|].
  split; [apply perm_swap|]. split; [apply perm_swap|].
  do 3 eexists. rewrite !Layer__init__eq. cbn [mapM mret result_ret mbind result_bind].
  repeat split; cbn [local_id]; apply String.eqb_neq; vm_compute; reflexivity.
Qed.

Lemma Layer_local_id_same_derivation_witness :
  exists L1 L2,
    Forall2 (fun x y => x.1 = y.1 /\ local_id x.2 = local_id y.2)
            [("base", slim)] [("base", slim_resolved)]
    /\ Layer__init__ sha None [("base", slim)] [PyStr "RUN ls"] two_files false false = Ok L1
    /\ Layer__init__ sha (Some "mine") [("base", slim_resolved)] [PyStr "RUN ls"] two_files
                     true false = Ok L2
    /\ base_layers L1 <> base_layers L2
    /\ local_id L1 = local_id L2.
Proof.
  do 2 eexists.
  assert (Hbl : Forall2 (fun x y : str * Layer => x.1 = y.1 /\ local_id x.2 = local_id y.2)
                        [("base", slim)] [("base", slim_resolved)])
    by (repeat constructor).
  split; [exact Hbl|].
  split; [vm_compute; reflexivity|]. split; [vm_compute; reflexivity|].
  split; [discriminate|].
  eapply (Layer_local_id_same_derivation sha None (Some "mine") _ _ [PyStr "RUN ls"] two_files
            false true false false _ _ Hbl); vm_compute; reflexivity.
Defined.

Lemma commands_normalised_witness :
  (Forall2 ascii_form [PyStr "FROM scratch"; PyBytes (octets "RUN ls")]
                      [octets "FROM scratch"; octets "RUN ls"]
   /\ exists L,
        Layer__init__ sha None [] [PyStr "FROM scratch"; PyBytes (octets "RUN ls")] []
                      false false = Ok L
        /\ Layer__init__ sha None []
                         [PyBytes (octets "FROM scratch"); PyBytes (octets "RUN ls")] []
                         false false = Ok L
        /\ dockerfile_commands L = [octets "FROM scratch"; octets "RUN ls"]
        /\ local_id L = spec_local_id sha [] [octets "FROM scratch"; octets "RUN ls"] [])
  /\ (In (PyInt 3) [PyStr "FROM scratch"; PyInt 3]
      /\ accepted_form (PyInt 3) = false
      /\ exists e,
           Layer__init__ sha None [] [PyStr "FROM scratch"; PyInt 3] [] false false = Raise e
           /\ (e = AssertionError \/ e = UnicodeEncodeError)).
Proof.
  destruct (commands_normalised sha None [] [] false false) as (Hforms & _ & Hother).
  assert (H1 : Forall2 ascii_form [PyStr "FROM scratch"; PyBytes (octets "RUN ls")]
                                  [octets "FROM scratch"; octets "RUN ls"]).
  { constructor; [apply ascii_form_text; reflexivity|].
    constructor; [apply ascii_form_bytes|constructor]. }
  assert (H2 : In (PyInt 3) [PyStr "FROM scratch"; PyInt 3]) by (right; left; reflexivity).
  split.
  - split; [exact H1|]. exact (Hforms _ _ H1).
  - split; [exact H2|]. split; [reflexivity|]. exact (Hother _ _ H2 eq_refl).
Defined.

Lemma non_ascii_text_raises_witness :
  is_ascii "RUN echo café" = false
  /\ Forall (fun c => accepted_form c = true) [PyBytes (octets "FROM base")]
  /\ Layer__init__ sha None [] ([PyBytes (octets "FROM base")] ++ PyStr "RUN echo café" :: [PyInt 3])
                   [] false false = Raise UnicodeEncodeError.
Proof.
  assert (H1 : is_ascii "RUN echo café" = false) by reflexivity.
  assert (H2 : Forall (fun c => accepted_form c = true) [PyBytes (octets "FROM base")])
    by (repeat constructor).
  split; [exact H1|]. split; [exact H2|].
  exact (proj1 (non_ascii_text_raises sha None [] [] false false _ H1) _ [PyInt 3] H2).
Defined.

Lemma is_inside_marker_witness :
  (marker_set !! "POLYESTER_IMAGE_LOCAL_ID" = Some (local_id slim)
   /\ is_inside marker_set slim = true)
  /\ (marker_set !! "POLYESTER_IMAGE_LOCAL_ID" <> Some (local_id scratch)
      /\ is_inside marker_set scratch = false)
  /\ (marker_absent !! "POLYESTER_IMAGE_LOCAL_ID" = None
      /\ is_inside marker_absent slim = false).
Proof.
  assert (H1 : marker_set !! "POLYESTER_IMAGE_LOCAL_ID" = Some (local_id slim))
    by (vm_compute; reflexivity).
  assert (H2 : marker_set !! "POLYESTER_IMAGE_LOCAL_ID" <> Some (local_id scratch))
    by (rewrite H1; discriminate).
  assert (H3 : marker_absent !! "POLYESTER_IMAGE_LOCAL_ID" = None)
    by (vm_compute; reflexivity).
  split; [|split].
  - split; [exact H1|]. exact (proj2 (proj1 (is_inside_marker marker_set slim)) H1).
  - split; [exact H2|]. exact (proj2 (proj1 (proj2 (is_inside_marker marker_set scratch))) H2).
  - split; [exact H3|]. exact (proj2 (proj2 (is_inside_marker marker_absent slim)) H3).
Defined.

Example debian_slim_constructed :
  DebianSlim__init__ sha None (3, 9, 5)%Z None = Ok debian_slim
  /\ DebianSlim__init__ sha (Some "3.9.5") (3, 10, 1)%Z None = Ok debian_slim
  /\ DebianSlim__init__ sha None (3, 10, 1)%Z (Some "3.9.5") = Ok debian_slim.
Proof. repeat split; vm_compute; reflexivity. Qed.

(** [C8], as stated, fails: a package name outside ASCII makes the operation
    raise, and no layer is constructed. *)
Lemma add_python_packages_counterexample :
  add_python_packages sha debian_slim ["café"] None = Raise UnicodeEncodeError.
Proof. vm_compute. reflexivity. Qed.

Lemma add_python_packages_two_stage_witness :
  forallb is_ascii ["numpy"; "scipy==1.7"] = true
  /\ is_ascii (default "" (Some "https://wheels.example/simple")) = true
  /\ exists builder L,
       add_python_packages sha debian_slim ["numpy"; "scipy==1.7"]
                           (Some "https://wheels.example/simple") = Ok L
       /\ tag builder = Some "python-3.9.5-slim-buster-builder"
       /\ base_layers L = [("base", slim); ("builder", builder)]
       /\ nth 1 (dockerfile_commands L) []
          = octets ("RUN pip wheel numpy scipy==1.7 -w /tmp/wheels "
                    +:+ "-f https://wheels.example/simple")
       /\ object_id L = None.
Proof.
  assert (H1 : forallb is_ascii ["numpy"; "scipy==1.7"] = true) by reflexivity.
  assert (H2 : is_ascii (default "" (Some "https://wheels.example/simple")) = true)
    by reflexivity.
  split; [exact H1|]. split; [exact H2|].
  destruct (add_python_packages_two_stage sha debian_slim _ _ H1 H2)
    as (builder & L & HL & Hb & _ & _ & _ & _ & _ & Hbl & Hcmds & _ & Hoid).
  exists builder, L. split; [exact HL|].
  split; [vm_compute in Hb; injection Hb as <-; reflexivity|].
  split; [exact Hbl|]. split; [rewrite Hcmds; reflexivity|exact Hoid].
Defined.


Lemma tagged_layer_resolution_witness :
  tag slim = Some "python-3.9.5-slim-buster-base"
  /\ stub_LayerGetByTag stub (api_pb2.LayerGetByTagRequest.mk "python-3.9.5-slim-buster-base")
     = Ok (api_pb2.LayerResponse.mk "la-python-3.9.5-slim-buster-base")
  /\ forallb is_pending [join_reply 0 "queued"; join_reply 0 ""] = true
  /\ create_or_get SUCCESS FAILURE BLOCKING_REQUEST_TIMEOUT GRPC_REQUEST_TIMEOUT
                   stub session slim
                   (mkWorld ([join_reply 0 "queued"; join_reply 0 ""]
                             ++ join_reply SUCCESS "" :: [join_reply FAILURE "unread"]) [])
     = (Done "la-python-3.9.5-slim-buster-base",
        mkWorld [join_reply FAILURE "unread"]
                [LayerGetByTag (api_pb2.LayerGetByTagRequest.mk "python-3.9.5-slim-buster-base");
                 join_request BLOCKING_REQUEST_TIMEOUT GRPC_REQUEST_TIMEOUT
                              "la-python-3.9.5-slim-buster-base" "se-1";
                 join_request BLOCKING_REQUEST_TIMEOUT GRPC_REQUEST_TIMEOUT
                              "la-python-3.9.5-slim-buster-base" "se-1";
                 join_request BLOCKING_REQUEST_TIMEOUT GRPC_REQUEST_TIMEOUT
                              "la-python-3.9.5-slim-buster-base" "se-1"]).
Proof.
  assert (Htag : tag slim = Some "python-3.9.5-slim-buster-base") by reflexivity.
  assert (Ht : "python-3.9.5-slim-buster-base" <> "") by discriminate.
  assert (Hresp : stub_LayerGetByTag stub
                    (api_pb2.LayerGetByTagRequest.mk "python-3.9.5-slim-buster-base")
                  = Ok (api_pb2.LayerResponse.mk "la-python-3.9.5-slim-buster-base"))
    by reflexivity.
  assert (Hpre : forallb is_pending [join_reply 0 "queued"; join_reply 0 ""] = true)
    by reflexivity.
  assert (HS : SUCCESS <> 0%Z) by discriminate.
  assert (HSF : SUCCESS <> FAILURE) by discriminate.
  split; [exact Htag|]. split; [exact Hresp|]. split; [exact Hpre|].
  destruct (tagged_layer_resolution SUCCESS FAILURE BLOCKING_REQUEST_TIMEOUT
              GRPC_REQUEST_TIMEOUT stub session slim _
              (mkWorld ([join_reply 0 "queued"; join_reply 0 ""]
                        ++ join_reply SUCCESS "" :: [join_reply FAILURE "unread"]) [])
              Htag Ht) as (_ & _ & Hok).
  destruct (Hok _ Hresp) as (_ & _ & Hdone & _).
  exact (Hdone _ "" [join_reply FAILURE "unread"] HS HSF Hpre eq_refl).
Defined.

(** A tag that is set to the empty string: [if self.args.tag] does not hold,
    so the layer is resolved as one without a tag.  Its base layer is handed
    to the session, a [LayerGetOrCreate] request is issued, and no
    [LayerGetByTag] request is. *)
Lemma tag_set_but_empty_counterexample :
  exists self,
    Layer__init__ sha (Some "") [("base", slim)] [] [] false false = Ok self
    /\ tag self <> None
    /\ world_log (create_or_get SUCCESS FAILURE BLOCKING_REQUEST_TIMEOUT GRPC_REQUEST_TIMEOUT
                                stub session self (mkWorld [join_reply SUCCESS ""] [])).2
       = [create_or_get_object slim;
          LayerGetOrCreate
            (get_or_create_request session self
               [with_object_id (Some ("la-" +:+ local_id slim)) slim]);
          join_request BLOCKING_REQUEST_TIMEOUT GRPC_REQUEST_TIMEOUT "la-new" "se-1"].
Proof.
  eexists. split; [vm_compute; reflexivity|]. split; [discriminate|].
  vm_compute. reflexivity.
Qed.

(** Two layers over the same base-layer object, resolved one after the
    other: [create_or_get] hands the shared object to the session once for
    each parent, and asks the remote side only for the parents themselves.
    What the session does with the second request is not decided here. *)
Example shared_base_handed_to_session :
  let parent1 := mkLayer "p1" None [("base", scratch)] [octets "RUN a"] [] false false None in
  let parent2 := mkLayer "p2" None [("base", scratch)] [octets "RUN b"] [] false false None in
  let resolve := create_or_get SUCCESS FAILURE BLOCKING_REQUEST_TIMEOUT GRPC_REQUEST_TIMEOUT
                               stub session in
  let w := (resolve parent2 (resolve parent1
                               (mkWorld [join_reply SUCCESS ""; join_reply SUCCESS ""] [])).2).2 in
  map is_create_or_get_object (world_log w) = [true; false; false; true; false; false]
  /\ map is_LayerGetOrCreate (world_log w) = [false; true; false; false; true; false].
Proof. split; vm_compute; reflexivity. Qed.

(** The case of [C9] with the SHA-256 digest. *)
Example commands_digest_collision_sha :
  Layer__init__ sha None [] [PyStr a_nl_b] [] false false
  = Ok (mkLayer "c:7e18f737311b2dc3b2f269dd78396b0351f14fb66efa879f768cb23181883c78"
                None [] [octets a_nl_b] [] false false None)
  /\ Layer__init__ sha None [] [PyStr "a"; PyStr "b"] [] false false
     = Ok (mkLayer "c:7e18f737311b2dc3b2f269dd78396b0351f14fb66efa879f768cb23181883c78"
                   None [] [octets "a"; octets "b"] [] false false None).
Proof. split; vm_compute; reflexivity. Qed.

End Concrete.

(** * Further properties of the code *)

(** ** Text and octets, continued *)

Lemma string_app_cons (x : ascii) (a b : str) : String x a +:+ b = String x (a +:+ b).
Proof. reflexivity. Qed.

Lemma string_app_assoc (a b c : str) : (a +:+ b) +:+ c = a +:+ (b +:+ c).
Proof.
  induction a as [|x a IH]; [reflexivity|]. now rewrite !string_app_cons, IH.
Qed.

Lemma string_app_nil_r (a : str) : a +:+ "" = a.
Proof.
  induction a as [|x a IH]; [reflexivity|]. now rewrite string_app_cons, IH.
Qed.

Lemma list_byte_of_string_app (a b : str) :
  list_byte_of_string (a +:+ b) = list_byte_of_string a ++ list_byte_of_string b.
Proof.
  unfold list_byte_of_string. now rewrite list_ascii_of_string_app, map_app.
Qed.

Lemma string_app_inv_tail (a b c : str) : a +:+ c = b +:+ c -> a = b.
Proof.
  intros H. apply (f_equal list_ascii_of_string) in H.
  rewrite !list_ascii_of_string_app in H. apply app_inv_tail in H.
  rewrite <- (string_of_list_ascii_of_string a), <- (string_of_list_ascii_of_string b).
  now rewrite H.
Qed.

Lemma string_app_inv_head (a b c : str) : c +:+ a = c +:+ b -> a = b.
Proof.
  induction c as [|x c IH]; [auto|]. rewrite !string_app_cons. intros [= H]. auto.
Qed.

(** ** Construction, continued *)

Section MoreConstructionFacts.

Variable digest : bytes -> str.

Lemma make_bytes_normalisable c :
  normalisable c = true <-> exists b, _make_bytes c = Ok b.
Proof.
  destruct c as [s|b| |]; simpl; unfold encode_ascii.
  - destruct (is_ascii s); split; eauto; try discriminate. intros [b H]. discriminate.
  - split; eauto.
  - split; [discriminate|]. intros [b H]. discriminate.
  - split; [discriminate|]. intros [b H]. discriminate.
Qed.

Lemma make_bytes_not_normalisable c :
  normalisable c = false ->
  _make_bytes c = Raise (if accepted_form c then UnicodeEncodeError else AssertionError).
Proof.
  destruct c as [s|b| |]; simpl; unfold encode_ascii; try reflexivity.
  - now intros ->.
  - discriminate.
Qed.

Lemma mapM_make_bytes_normalisable cmds :
  forallb normalisable cmds = true <-> exists bs, mapM _make_bytes cmds = Ok bs.
Proof.
  induction cmds as [|c cmds IH]; [split; eauto|].
  rewrite mapM_result_cons. cbn [forallb]. rewrite andb_true_iff, IH, make_bytes_normalisable.
  split.
  - intros [[b ->] [bs ->]]. eauto.
  - destruct (_make_bytes c) as [b|e]; [|intros [bs H]; discriminate].
    destruct (mapM _make_bytes cmds) as [bs|e]; [eauto|intros [bs' H]; discriminate].
Qed.

(** [X2] The constructor returns a layer exactly when every command is an
    ASCII text or octets.  The layer then holds the tag, the base layers, the
    context files and the two flags as they were given, one command of
    octets for each command given, and no remote identifier. *)
Theorem Layer_init_succeeds_iff t bl cmds cf mc loc :
  ((exists L, Layer__init__ digest t bl cmds cf mc loc = Ok L)
   <-> forallb normalisable cmds = true)
  /\ (forall L,
        Layer__init__ digest t bl cmds cf mc loc = Ok L ->
        tag L = t /\ base_layers L = bl /\ context_files L = cf
        /\ must_create L = mc /\ local L = loc
        /\ length (dockerfile_commands L) = length cmds
        /\ object_id L = None).
Proof.
  split.
  - rewrite mapM_make_bytes_normalisable, Layer__init__eq. split.
    + intros [L H]. destruct (mapM _make_bytes cmds) as [bs|e]; [eauto|discriminate].
    + intros [bs ->]. eauto.
  - intros L. rewrite Layer__init__eq.
    destruct (mapM _make_bytes cmds) as [bs|e] eqn:Hcmds; [|discriminate].
    intros [= <-]. cbn. repeat split.
    apply mapM_result_Ok in Hcmds. symmetry. eapply Forall2_length, Hcmds.
Qed.

(** [X3] The first command that is not an ASCII text or octets decides the
    exception, whatever comes after it: [UnicodeEncodeError] when it is a
    text, [AssertionError] when it is of another type. *)
Theorem first_offending_command_decides tag bl pre c post cf mc loc :
  forallb normalisable pre = true ->
  normalisable c = false ->
  Layer__init__ digest tag bl (pre ++ c :: post) cf mc loc
  = Raise (if accepted_form c then UnicodeEncodeError else AssertionError).
Proof.
  intros Hpre Hc. rewrite Layer__init__eq.
  rewrite (mapM_result_Raise _make_bytes pre post c
             (if accepted_form c then UnicodeEncodeError else AssertionError)).
  - reflexivity.
  - apply Forall_forall. intros x Hx. right. apply make_bytes_normalisable.
    rewrite forallb_forall in Hpre. apply Hpre. now apply list_elem_of_In.
  - now apply make_bytes_not_normalisable.
Qed.

Lemma concat_cons_cons (sep a b : str) (l : list str) :
  String.concat sep (a :: b :: l) = a +:+ sep +:+ String.concat sep (b :: l).
Proof. reflexivity. Qed.

(** Two last entries, or one entry that already holds the separator, join
    to the same string. *)
Lemma concat_merge_last (sep : str) (l : list str) (x y : str) :
  String.concat sep (l ++ [x; y]) = String.concat sep (l ++ [x +:+ sep +:+ y]).
Proof.
  induction l as [|a [|b l] IH].
  - reflexivity.
  - cbn [app]. rewrite !concat_cons_cons. reflexivity.
  - change ((a :: b :: l) ++ [x; y]) with (a :: b :: (l ++ [x; y])).
    change ((a :: b :: l) ++ [x +:+ sep +:+ y]) with (a :: b :: (l ++ [x +:+ sep +:+ y])).
    rewrite !(concat_cons_cons sep a b). f_equal. f_equal. exact IH.
Qed.

Lemma bytes_join_cons_cons (sep a b : bytes) (l : list bytes) :
  bytes_join sep (a :: b :: l) = a ++ sep ++ bytes_join sep (b :: l).
Proof. reflexivity. Qed.

(** Two adjacent parts, or one part that already holds the separator, join
    to the same octets. *)
Lemma bytes_join_merge (sep : bytes) (pre : list bytes) (a b : bytes) (post : list bytes) :
  bytes_join sep (pre ++ a :: b :: post) = bytes_join sep (pre ++ (a ++ sep ++ b) :: post).
Proof.
  induction pre as [|p [|q pre] IH].
  - cbn [app]. rewrite bytes_join_cons_cons. destruct post as [|c post].
    + reflexivity.
    + rewrite !bytes_join_cons_cons, <- !app_assoc. reflexivity.
  - cbn [app]. rewrite !bytes_join_cons_cons. f_equal. f_equal. exact IH.
  - change ((p :: q :: pre) ++ a :: b :: post) with (p :: q :: (pre ++ a :: b :: post)).
    change ((p :: q :: pre) ++ (a ++ sep ++ b) :: post)
      with (p :: q :: (pre ++ (a ++ sep ++ b) :: post)).
    rewrite !(bytes_join_cons_cons sep p q). f_equal. f_equal. exact IH.
Qed.

(** [X4] [DebianSlim(python_version)] never fails.  The version it keeps is
    the one given, even an empty one; without one it is the configured
    version when that is a non-empty string, and otherwise the three numbers
    of [sys.version_info] joined by dots.  The layer has the tag
    ["python-<version>-slim-buster-base"] and nothing else. *)
Theorem DebianSlim_init_total cfg ver pv :
  exists d,
    DebianSlim__init__ digest cfg ver pv = Ok d
    /\ (forall v, pv = Some v -> python_version d = v)
    /\ (pv = None -> truthy cfg = true -> cfg = Some (python_version d))
    /\ (pv = None -> truthy cfg = false ->
        python_version d
        = str_of_Z ver.1.1 +:+ "." +:+ str_of_Z ver.1.2 +:+ "." +:+ str_of_Z ver.2)
    /\ tag (as_layer d) = Some ("python-" +:+ python_version d +:+ "-slim-buster-base")
    /\ base_layers (as_layer d) = [] /\ dockerfile_commands (as_layer d) = []
    /\ context_files (as_layer d) = [] /\ object_id (as_layer d) = None.
Proof.
  unfold DebianSlim__init__. rewrite Layer__init__eq. cbn [mapM mret result_ret mbind result_bind].
  eexists. split; [reflexivity|]. cbn [python_version as_layer tag base_layers
    dockerfile_commands context_files object_id].
  repeat split.
  - now intros v ->.
  - intros -> Hcfg. unfold get_python_version. rewrite Hcfg.
    destruct cfg; [reflexivity|discriminate].
  - intros -> Hcfg. unfold get_python_version. rewrite Hcfg.
    destruct ver as [[major minor] micro]. reflexivity.
Qed.

Lemma DebianSlim_init_local_id cfg ver pv d :
  DebianSlim__init__ digest cfg ver pv = Ok d ->
  local_id (as_layer d) = spec_local_id digest [] [] [].
Proof.
  unfold DebianSlim__init__. rewrite Layer__init__eq.
  cbn [mapM mret result_ret mbind result_bind]. now intros [= <-].
Qed.

(** [X5] The version does not enter the identity of a [DebianSlim]: two of
    them, of whatever versions, have the same [local_id], the one of a layer
    without commands, and [is_inside] gives the same answer for both in
    every environment. *)
Theorem DebianSlim_versions_share_local_id cfg1 ver1 pv1 cfg2 ver2 pv2 d1 d2 :
  DebianSlim__init__ digest cfg1 ver1 pv1 = Ok d1 ->
  DebianSlim__init__ digest cfg2 ver2 pv2 = Ok d2 ->
  local_id (as_layer d1) = "c:" +:+ digest []
  /\ local_id (as_layer d1) = local_id (as_layer d2)
  /\ (forall environ, is_inside environ (as_layer d1) = is_inside environ (as_layer d2)).
Proof.
  intros H1%DebianSlim_init_local_id H2%DebianSlim_init_local_id.
  split; [now rewrite H1|]. split; [now rewrite H1, H2|].
  intros environ. unfold is_inside. now rewrite H1, H2.
Qed.

(** [X7] The identity string does not escape its separators.  Two context
    files, or one file whose name spells out the first entry and the start
    of the second, give the same [local_id]; the same holds for two base
    layers and one base layer under such an alias. *)
Theorem local_id_separator_collision t cmds mc loc :
  (forall bl f1 c1 f2 c2 L1 L2,
      Layer__init__ digest t bl cmds [(f1, c1); (f2, c2)] mc loc = Ok L1 ->
      Layer__init__ digest t bl cmds
                    [(f1 +:+ ":" +:+ digest c1 +:+ ",f:" +:+ f2, c2)] mc loc = Ok L2 ->
      local_id L1 = local_id L2 /\ context_files L1 <> context_files L2)
  /\ (forall a1 B1 a2 B2 cf L1 L2,
        Layer__init__ digest t [(a1, B1); (a2, B2)] cmds cf mc loc = Ok L1 ->
        Layer__init__ digest t
                      [(a1 +:+ ":(" +:+ local_id B1 +:+ "),b:" +:+ a2, B2)] cmds cf mc loc
        = Ok L2 ->
        local_id L1 = local_id L2 /\ base_layers L1 <> base_layers L2).
Proof.
  split.
  - intros bl f1 c1 f2 c2 L1 L2. rewrite !Layer__init__eq.
    destruct (mapM _make_bytes cmds) as [bs|e]; [|discriminate].
    intros [= <-] [= <-]. split; [|discriminate].
    cbn [local_id]. unfold spec_local_id. cbn [map fst snd].
    rewrite !app_assoc.
    rewrite (concat_merge_last "," _ ("f:" +:+ f1 +:+ ":" +:+ digest c1)
               ("f:" +:+ f2 +:+ ":" +:+ digest c2)).
    do 3 f_equal. now rewrite !string_app_assoc.
  - intros a1 B1 a2 B2 cf L1 L2. rewrite !Layer__init__eq.
    destruct (mapM _make_bytes cmds) as [bs|e]; [|discriminate].
    intros [= <-] [= <-]. split; [|discriminate].
    cbn [local_id]. unfold spec_local_id. cbn [map fst snd app].
    rewrite !concat_cons_cons, !string_app_assoc. reflexivity.
Qed.

(** [X8] Two adjacent commands, or the one command made of them with a
    newline in between, give the same [local_id], wherever they stand in the
    sequence; the two layers differ by one command. *)
Theorem commands_merge_keeps_local_id t bl pre a b post cf mc loc :
  exists L1 L2,
    Layer__init__ digest t bl (map PyBytes (pre ++ a :: b :: post)) cf mc loc = Ok L1
    /\ Layer__init__ digest t bl
         (map PyBytes (pre ++ (a ++ [byte_of_ascii newline] ++ b) :: post)) cf mc loc = Ok L2
    /\ local_id L1 = local_id L2
    /\ length (dockerfile_commands L1) = S (length (dockerfile_commands L2)).
Proof.
  do 2 eexists. rewrite !Layer__init__eq, !mapM_make_bytes_octets.
  split; [reflexivity|]. split; [reflexivity|]. cbn [local_id dockerfile_commands]. split.
  - unfold spec_local_id. now rewrite bytes_join_merge.
  - rewrite !length_app. cbn [length]. lia.
Qed.

Lemma mapM_make_bytes_text_fails (texts : list str) :
  forallb is_ascii texts = false ->
  mapM _make_bytes (map PyStr texts) = Raise UnicodeEncodeError.
Proof.
  induction texts as [|x texts IH]; [discriminate|].
  cbn [forallb map]. rewrite mapM_result_cons. cbn [_make_bytes]. unfold encode_ascii.
  destruct (is_ascii x); [|reflexivity]. cbn [andb]. intros H. now rewrite IH.
Qed.

Lemma is_str_texts cmds :
  forallb is_str cmds = true -> exists texts, cmds = map PyStr texts.
Proof.
  induction cmds as [|[s| | |] cmds IH]; cbn [forallb is_str andb]; try discriminate.
  - now exists [].
  - intros H. destruct (IH H) as [texts ->]. now exists (s :: texts).
Qed.

Lemma is_ascii_str_texts texts :
  forallb is_ascii_str (map PyStr texts) = forallb is_ascii texts.
Proof. induction texts as [|x texts IH]; [reflexivity|]. cbn. now rewrite IH. Qed.

Lemma is_ascii_str_is_str cmds :
  forallb is_ascii_str cmds = true -> forallb is_str cmds = true.
Proof.
  induction cmds as [|[s| | |] cmds IH]; cbn [forallb is_str is_ascii_str andb];
    try discriminate; [reflexivity|].
  intros H. apply andb_true_iff in H as [_ H]. now apply IH.
Qed.

Lemma mapM_str_add_texts a texts :
  mapM (fun command => str_add a command) (map PyStr texts)
  = Ok (map PyStr (map (fun c => a +:+ c) texts)).
Proof.
  induction texts as [|x texts IH]; [reflexivity|].
  cbn [map]. rewrite mapM_result_cons, IH. reflexivity.
Qed.

(** The first command that is not a text stops the comprehension. *)
Lemma mapM_str_add_fails a cmds :
  forallb is_str cmds = false ->
  mapM (fun command => str_add a command) cmds = Raise TypeError.
Proof.
  induction cmds as [|c cmds IH]; [discriminate|].
  cbn [forallb]. rewrite mapM_result_cons.
  destruct c as [s| | |]; cbn [is_str andb str_add]; try reflexivity.
  intros H. now rewrite IH.
Qed.

(** The lines of the build script of [run_commands], as texts. *)
Lemma run_commands_eq self texts :
  run_commands digest self (map PyStr texts)
  = Layer__init__ digest None [("base", as_layer self)]
      (map PyStr ("FROM base" :: map (fun c => "RUN " +:+ c) texts)) [] false false.
Proof. unfold run_commands. rewrite mapM_str_add_texts. reflexivity. Qed.

Lemma run_script_ascii cmds :
  forallb is_ascii ("FROM base" :: map (fun c => "RUN " +:+ c) cmds) = forallb is_ascii cmds.
Proof.
  cbn [forallb]. change (is_ascii "FROM base") with true. cbn [andb].
  induction cmds as [|c cmds IH]; [reflexivity|].
  cbn [map forallb]. rewrite is_ascii_app, IH. reflexivity.
Qed.

(** [X9] [run_commands] returns a layer exactly when every command is an
    ASCII text.  When some command is not a text (octets, a number, [None])
    it raises [TypeError], from the concatenation with ["RUN "] and before a
    layer is built; when all are texts and one is not ASCII it raises
    [UnicodeEncodeError].  The layer has no tag, the receiver as its one base
    layer under ["base"], the line ["FROM base"] followed by one
    ["RUN <command>"] line for each command, in order, no context files and
    no remote identifier; its [local_id] is the receiver's wrapped in
    ["b:base:(...)"], followed by the digest of the lines. *)
Theorem run_commands_layer self cmds :
  ((exists L, run_commands digest self cmds = Ok L) <-> forallb is_ascii_str cmds = true)
  /\ (forallb is_str cmds = false -> run_commands digest self cmds = Raise TypeError)
  /\ (forallb is_str cmds = true -> forallb is_ascii_str cmds = false ->
      run_commands digest self cmds = Raise UnicodeEncodeError)
  /\ (forall L,
        run_commands digest self cmds = Ok L ->
        exists texts,
          cmds = map PyStr texts
          /\ tag L = None
          /\ base_layers L = [("base", as_layer self)]
          /\ dockerfile_commands L
             = list_byte_of_string "FROM base"
               :: map (fun c => list_byte_of_string ("RUN " +:+ c)) texts
          /\ context_files L = []
          /\ object_id L = None
          /\ local_id L
             = String.concat ","
                 ["b:base:(" +:+ local_id (as_layer self) +:+ ")";
                  "c:" +:+ digest (bytes_join [byte_of_ascii newline]
                                              (dockerfile_commands L))]).
Proof.
  destruct (forallb is_str cmds) eqn:Hstr.
  - destruct (is_str_texts cmds Hstr) as [texts ->].
    rewrite is_ascii_str_texts, run_commands_eq, Layer__init__eq.
    destruct (forallb is_ascii texts) eqn:Hcmds.
    + rewrite mapM_make_bytes_text by now rewrite run_script_ascii.
      split; [split; eauto|]. split; [discriminate|]. split; [discriminate|].
      intros L [= <-]. exists texts.
      cbn [tag base_layers dockerfile_commands context_files object_id local_id map].
      rewrite map_map. repeat split.
    + rewrite mapM_make_bytes_text_fails by now rewrite run_script_ascii.
      split; [split; [intros [L H]|]; discriminate|]. split; [discriminate|].
      split; [reflexivity|discriminate].
  - unfold run_commands. rewrite mapM_str_add_fails by assumption.
    split; [split; [intros [L H]; discriminate|]|].
    + intros H. apply is_ascii_str_is_str in H. congruence.
    + split; [reflexivity|]. split; [discriminate|]. intros L H. discriminate.
Qed.

(** [X10] A command that holds a newline followed by ["RUN "] is the same,
    for the identity, as two commands: [run_commands] gives both layers the
    same [local_id]. *)
Theorem run_commands_split_line self pre a b post :
  forallb is_ascii (pre ++ a :: b :: post) = true ->
  exists L1 L2,
    run_commands digest self (map PyStr (pre ++ a :: b :: post)) = Ok L1
    /\ run_commands digest self
         (map PyStr (pre ++ (a +:+ String newline "RUN " +:+ b) :: post)) = Ok L2
    /\ local_id L1 = local_id L2
    /\ length (dockerfile_commands L1) = S (length (dockerfile_commands L2)).
Proof.
  intros Hascii.
  assert (Hmerged : forallb is_ascii (pre ++ (a +:+ String newline "RUN " +:+ b) :: post)
                    = true).
  { rewrite forallb_app in *. cbn [forallb] in *. rewrite !is_ascii_app.
    change (is_ascii (String newline "RUN ")) with true.
    apply andb_true_iff in Hascii as [-> Hascii].
    apply andb_true_iff in Hascii as [-> Hascii].
    apply andb_true_iff in Hascii as [-> ->]. reflexivity. }
  do 2 eexists. rewrite !run_commands_eq, !Layer__init__eq.
  rewrite !mapM_make_bytes_text by now rewrite run_script_ascii.
  split; [reflexivity|]. split; [reflexivity|].
  cbn [local_id dockerfile_commands]. split.
  - unfold spec_local_id. do 4 f_equal.
    cbn [map]. rewrite !map_app. cbn [map].
    rewrite !app_comm_cons.
    rewrite (bytes_join_merge [byte_of_ascii newline]).
    do 3 f_equal.
    rewrite <- (string_app_assoc "RUN " a), list_byte_of_string_app.
    f_equal. rewrite string_app_cons, list_byte_of_string_app. reflexivity.
  - cbn [map length]. rewrite !length_map, !length_app. cbn [length]. lia.
Qed.

Lemma DebianSlim_init_eq cfg ver pv :
  DebianSlim__init__ digest cfg ver pv =
  let v := match pv with Some v => v | None => get_python_version cfg ver end in
  Ok (mkDebianSlim
        (mkLayer (spec_local_id digest [] [] [])
                 (Some ("python-" +:+ v +:+ "-slim-buster-base")) [] [] [] false false None)
        v).
Proof. unfold DebianSlim__init__. rewrite Layer__init__eq. reflexivity. Qed.

(** [X11] The Python version does not enter the identity of the layer that
    [add_python_packages] builds: on two [DebianSlim] of different versions,
    with the same packages, it returns layers with the same [local_id],
    although their base layers differ. *)
Theorem add_python_packages_ignores_version cfg1 ver1 pv1 cfg2 ver2 pv2 d1 d2 pkgs links L1 L2 :
  DebianSlim__init__ digest cfg1 ver1 pv1 = Ok d1 ->
  DebianSlim__init__ digest cfg2 ver2 pv2 = Ok d2 ->
  add_python_packages digest d1 pkgs links = Ok L1 ->
  add_python_packages digest d2 pkgs links = Ok L2 ->
  local_id L1 = local_id L2
  /\ (python_version d1 <> python_version d2 -> base_layers L1 <> base_layers L2).
Proof.
  rewrite !DebianSlim_init_eq. cbn zeta. intros [= <-] [= <-].
  rewrite !add_python_packages_eq, !Layer__init__eq.
  destruct (mapM _make_bytes _) as [bs|e]; [|discriminate].
  intros [= <-] [= <-]. cbn [local_id base_layers python_version as_layer]. split.
  - apply spec_local_id_bases. repeat constructor.
  - intros Hne [= H _]. apply Hne.
    apply string_app_inv_head in H. now apply string_app_inv_tail in H.
Qed.

Lemma app_separator_inj {A} (sep : A) (a b x y : list A) :
  ~ In sep a -> ~ In sep b -> a ++ sep :: x = b ++ sep :: y -> a = b /\ x = y.
Proof.
  revert b. induction a as [|h a IH]; intros [|k b] Ha Hb H; cbn [app] in H.
  - now injection H as ->.
  - injection H as -> _. exfalso. apply Hb. now left.
  - injection H as -> _. exfalso. apply Ha. now left.
  - injection H as -> H. destruct (IH b) as [-> ->]; auto.
    + intros Hin. apply Ha. now right.
    + intros Hin. apply Hb. now right.
Qed.

Lemma bytes_join_newline_free (l1 l2 : list bytes) :
  Forall (fun c => ~ In (byte_of_ascii newline) c) l1 ->
  Forall (fun c => ~ In (byte_of_ascii newline) c) l2 ->
  l1 <> [] -> l2 <> [] ->
  bytes_join [byte_of_ascii newline] l1 = bytes_join [byte_of_ascii newline] l2 ->
  l1 = l2.
Proof.
  intros H1. revert l2. induction H1 as [|a l1 Ha H1 IH]; intros l2 H2 Hne1 Hne2 Hjoin.
  - contradiction.
  - destruct H2 as [|b l2 Hb H2]; [contradiction|].
    destruct l1 as [|a' l1], l2 as [|b' l2].
    + cbn in Hjoin. now subst.
    + rewrite bytes_join_cons_cons in Hjoin. cbn [bytes_join app] in Hjoin.
      exfalso. apply Ha. rewrite Hjoin. apply in_or_app. right. now left.
    + rewrite bytes_join_cons_cons in Hjoin. cbn [bytes_join app] in Hjoin.
      exfalso. apply Hb. rewrite <- Hjoin. apply in_or_app. right. now left.
    + rewrite !bytes_join_cons_cons in Hjoin. cbn [app] in Hjoin.
      destruct (app_separator_inj _ _ _ _ _ Ha Hb Hjoin) as [-> Hrest].
      f_equal. apply IH; auto; discriminate.
Qed.

(** [X23] Apart from newlines inside a command, the octets that are hashed
    determine the commands: two non-empty sequences of commands without
    newlines that join to the same octets are the same sequence.  The empty
    sequence and the sequence of one empty command join to the same octets,
    and give the same [local_id]. *)
Theorem commands_blob_determines_commands t bl cf mc loc :
  (forall l1 l2,
      Forall (fun c => ~ In (byte_of_ascii newline) c) l1 ->
      Forall (fun c => ~ In (byte_of_ascii newline) c) l2 ->
      l1 <> [] -> l2 <> [] ->
      bytes_join [byte_of_ascii newline] l1 = bytes_join [byte_of_ascii newline] l2 ->
      l1 = l2)
  /\ (exists L1 L2,
        Layer__init__ digest t bl [] cf mc loc = Ok L1
        /\ Layer__init__ digest t bl [PyBytes []] cf mc loc = Ok L2
        /\ dockerfile_commands L1 <> dockerfile_commands L2
        /\ local_id L1 = local_id L2).
Proof.
  split.
  - exact bytes_join_newline_free.
  - do 2 eexists. rewrite !Layer__init__eq.
    repeat split; cbn; discriminate.
Qed.

End MoreConstructionFacts.

(** ** Containment check, continued *)

(** [X6] [is_inside] reads one variable of the environment.  Setting that
    variable to the layer's [local_id] makes the answer [true]; setting it to
    anything else, or removing it, makes the answer [false]; setting or
    removing another variable changes nothing. *)
Theorem is_inside_environ_updates (environ : gmap string string) (self : Layer) :
  is_inside (<["POLYESTER_IMAGE_LOCAL_ID" := local_id self]> environ) self = true
  /\ is_inside (delete "POLYESTER_IMAGE_LOCAL_ID" environ) self = false
  /\ (forall v, v <> local_id self ->
        is_inside (<["POLYESTER_IMAGE_LOCAL_ID" := v]> environ) self = false)
  /\ (forall k v, k <> "POLYESTER_IMAGE_LOCAL_ID" ->
        is_inside (<[k := v]> environ) self = is_inside environ self
        /\ is_inside (delete k environ) self = is_inside environ self).
Proof.
  unfold is_inside, os_getenv. repeat split.
  - rewrite lookup_insert_eq. simpl. apply String.eqb_refl.
  - now rewrite lookup_delete_eq.
  - intros v Hv. rewrite lookup_insert_eq. simpl. now apply String.eqb_neq.
  - now rewrite lookup_insert_ne.
  - now rewrite lookup_delete_ne.
Qed.

(** ** Resolution, continued *)

Section MoreResolutionFacts.

Variables SUCCESS FAILURE : Z.
Variables BLOCKING_REQUEST_TIMEOUT GRPC_REQUEST_TIMEOUT : Z.

#[local] Abbreviation join_call :=
  (join_request BLOCKING_REQUEST_TIMEOUT GRPC_REQUEST_TIMEOUT).
#[local] Abbreviation join :=
  (join_loop SUCCESS FAILURE BLOCKING_REQUEST_TIMEOUT GRPC_REQUEST_TIMEOUT).
#[local] Abbreviation wait :=
  (wait_for_layer SUCCESS FAILURE BLOCKING_REQUEST_TIMEOUT GRPC_REQUEST_TIMEOUT).
#[local] Abbreviation resolve :=
  (create_or_get SUCCESS FAILURE BLOCKING_REQUEST_TIMEOUT GRPC_REQUEST_TIMEOUT).

(** [X12] The join loop returns only on a reply with the status SUCCESS:
    when it returns, the value is the handle it was given, every reply
    before that one was without a status, one join call was made for each
    reply read, and the replies after it are left unread. *)
Theorem join_loop_returns_after_success layer_id sid replies log id w' :
  join layer_id sid replies log = (Done id, w') ->
  id = layer_id
  /\ exists pre response,
       replies = pre ++ Ok response :: join_replies w'
       /\ forallb is_pending pre = true
       /\ api_pb2.GenericResult.status (api_pb2.LayerJoinResponse.result response) = SUCCESS
       /\ SUCCESS <> 0%Z /\ SUCCESS <> FAILURE
       /\ world_log w' = log ++ replicate (S (length pre)) (join_call layer_id sid).
Proof.
  revert log. induction replies as [|[response|e] replies IH]; intros log; cbn [join_loop].
  - discriminate.
  - destruct (api_pb2.GenericResult.status (api_pb2.LayerJoinResponse.result response) =? 0)%Z
      eqn:H0.
    + intros H. destruct (IH _ H) as (-> & pre & r & Hreplies & Hpre & Hs & HS0 & HSF & Hlog).
      split; [reflexivity|]. exists (Ok response :: pre), r.
      cbn [forallb is_pending app length]. rewrite H0, Hpre, Hlog, <- app_assoc.
      rewrite Hreplies at 1. repeat split; assumption.
    + destruct (api_pb2.GenericResult.status (api_pb2.LayerJoinResponse.result response)
                =? FAILURE)%Z eqn:HF; [discriminate|].
      destruct (api_pb2.GenericResult.status (api_pb2.LayerJoinResponse.result response)
                =? SUCCESS)%Z eqn:HS; [|discriminate].
      intros [= <- <-]. apply Z.eqb_eq in HS. apply Z.eqb_neq in H0, HF.
      split; [reflexivity|]. exists [], response. cbn. repeat split; congruence.
  - discriminate.
Qed.

(** [X13] As long as every reply is without a status the loop neither
    returns nor raises: it has made one more join call than it has read
    replies, and waits for the answer to the last one. *)
Theorem join_loop_pending_never_ends layer_id sid replies log :
  forallb is_pending replies = true ->
  wait layer_id sid (mkWorld replies log)
  = (Waiting, mkWorld [] (log ++ replicate (S (length replies)) (join_call layer_id sid))).
Proof.
  intros Hp. unfold wait_for_layer. cbn [join_replies world_log].
  rewrite <- (app_nil_r replies) at 1. rewrite join_loop_skips_pending by assumption.
  cbn [join_loop]. now rewrite <- app_assoc, replicate_snoc.
Qed.

(** [X14] After any number of replies without a status, the first reply
    that has one, or the first exception of the transport, ends the loop:
    SUCCESS returns the handle, FAILURE raises [RemoteException] with the
    diagnostic, an exception is raised as it is.  One join call was made for
    each reply read and the replies after it are left unread. *)
Theorem join_loop_after_pending layer_id sid pre rest log :
  forallb is_pending pre = true ->
  SUCCESS <> 0%Z -> FAILURE <> 0%Z -> SUCCESS <> FAILURE ->
  let calls := log ++ replicate (S (length pre)) (join_call layer_id sid) in
  (forall e,
      wait layer_id sid (mkWorld (pre ++ join_reply SUCCESS e :: rest) log)
      = (Done layer_id, mkWorld rest calls))
  /\ (forall d,
        wait layer_id sid (mkWorld (pre ++ join_reply FAILURE d :: rest) log)
        = (Raised (RemoteException d), mkWorld rest calls))
  /\ (forall e,
        wait layer_id sid (mkWorld (pre ++ Raise e :: rest) log)
        = (Raised e, mkWorld rest calls)).
Proof.
  intros Hp HS HF HSF calls. subst calls. unfold wait_for_layer. cbn [join_replies world_log].
  repeat split; intros x; rewrite join_loop_skips_pending by assumption.
  - rewrite join_loop_success by assumption. now rewrite <- app_assoc, replicate_snoc.
  - rewrite join_loop_failure by assumption. now rewrite <- app_assoc, replicate_snoc.
  - cbn [join_loop]. now rewrite <- app_assoc, replicate_snoc.
Qed.

(** When the session raises for some base layer, one of the exceptions is
    the first in time. *)
Lemma first_raised_some session (layers : list Layer) e0 :
  mapM (session_create_or_get_object session) layers = Raise e0 ->
  exists t e,
    first_raised (map (fun layer => (session_finished_at session layer,
                                     match session_create_or_get_object session layer with
                                     | Ok obj => Done obj
                                     | Raise e => Raised e
                                     end)) layers) = Some (t, e).
Proof.
  induction layers as [|layer layers IH]; [discriminate|].
  rewrite mapM_result_cons. cbn [map first_raised].
  destruct (session_create_or_get_object session layer) as [obj|e].
  - destruct (mapM _ layers) as [objs|e1]; [discriminate|]. intros H. now apply IH.
  - intros _. destruct (first_raised _) as [[t' e']|]; [|eauto].
    destruct (t' <? _)%nat; eauto.
Qed.

(** The exception that is first in time is one the session raised. *)
Lemma first_raised_member session (layers : list Layer) t e :
  first_raised (map (fun layer => (session_finished_at session layer,
                                   match session_create_or_get_object session layer with
                                   | Ok obj => Done obj
                                   | Raise e => Raised e
                                   end)) layers) = Some (t, e) ->
  exists layer,
    In layer layers
    /\ session_create_or_get_object session layer = Raise e
    /\ session_finished_at session layer = t.
Proof.
  induction layers as [|layer layers IH]; [discriminate|].
  cbn [map first_raised].
  destruct (session_create_or_get_object session layer) as [obj|e1] eqn:Hlayer.
  - intros H. destruct (IH H) as (l & Hin & Hl). exists l. split; [now right|exact Hl].
  - destruct (first_raised _) as [[t' e']|].
    + destruct (t' <? _)%nat.
      * intros [= <- <-]. destruct (IH eq_refl) as (l & Hin & Hl).
        exists l. split; [now right|exact Hl].
      * intros [= <- <-]. exists layer. split; [now left|]. split; [assumption|reflexivity].
    + intros [= <- <-]. exists layer. split; [now left|]. split; [assumption|reflexivity].
Qed.

(** A call that raises before every other call that raises is the first in
    time, wherever its layer stands in the mapping. *)
Lemma first_raised_earliest session (pre post : list Layer) layer e :
  session_create_or_get_object session layer = Raise e ->
  (forall l, In l (pre ++ post) ->
             (exists e', session_create_or_get_object session l = Raise e') ->
             session_finished_at session layer < session_finished_at session l) ->
  first_raised (map (fun layer => (session_finished_at session layer,
                                   match session_create_or_get_object session layer with
                                   | Ok obj => Done obj
                                   | Raise e => Raised e
                                   end)) (pre ++ layer :: post))
  = Some (session_finished_at session layer, e).
Proof.
  intros Hlayer. induction pre as [|p pre IH]; intros Hothers.
  - cbn [app map first_raised]. rewrite Hlayer.
    destruct (first_raised _) as [[t' e']|] eqn:Hpost; [|reflexivity].
    destruct (first_raised_member _ _ _ _ Hpost) as (l & Hin & Hl & <-).
    assert (Hlt : session_finished_at session layer < session_finished_at session l)
      by (apply Hothers; eauto).
    destruct (Nat.ltb_spec (session_finished_at session l) (session_finished_at session layer));
      [lia|reflexivity].
  - cbn [app map first_raised]. rewrite IH.
    + destruct (session_create_or_get_object session p) as [obj|e1] eqn:Hp; [reflexivity|].
      assert (Hlt : session_finished_at session layer < session_finished_at session p)
        by (apply Hothers; [now left|eauto]).
      apply Nat.ltb_lt in Hlt. now rewrite Hlt.
    + intros l Hin. apply Hothers. now right.
Qed.

Lemma gather_create_or_get_object_outcome session (layers : list Layer) w :
  (gather (map (fun layer => (session_finished_at session layer,
                              await (create_or_get_object layer)
                                    (session_create_or_get_object session layer)))
               layers) w).1
  = match mapM (session_create_or_get_object session) layers with
    | Ok objs => Done objs
    | Raise _ =>
        match first_raised
                (map (fun layer => (session_finished_at session layer,
                                    match session_create_or_get_object session layer with
                                    | Ok obj => Done obj
                                    | Raise e => Raised e
                                    end)) layers) with
        | Some (_, e) => Raised e
        | None => Waiting
        end
    end.
Proof.
  destruct (mapM _ layers) as [objs|e0] eqn:Hobjs.
  - now apply gather_create_or_get_object_done.
  - unfold gather. cbn [fst]. rewrite gather_start_create_or_get_object. cbn [fst].
    destruct (first_raised_some session layers e0 Hobjs) as (t & e & ->). reflexivity.
Qed.

(** What [create_or_get] does for a layer without a tag, in one equation. *)
Lemma create_or_get_untagged_eq stub session self w :
  truthy (tag self) = false ->
  let handed :=
    world_log w ++ map create_or_get_object (map snd (base_layers self)) in
  resolve stub session self w =
  match mapM (session_create_or_get_object session) (map snd (base_layers self)) with
  | Raise _ =>
      match first_raised
              (map (fun layer => (session_finished_at session layer,
                                  match session_create_or_get_object session layer with
                                  | Ok obj => Done obj
                                  | Raise e => Raised e
                                  end)) (map snd (base_layers self))) with
      | Some (_, e) => (Raised e, mkWorld (join_replies w) handed)
      | None => (Waiting, mkWorld (join_replies w) handed)
      end
  | Ok objs =>
      let req := get_or_create_request session self objs in
      match stub_LayerGetOrCreate stub req with
      | Ok resp =>
          join (api_pb2.LayerResponse.layer_id resp) (session_id session) (join_replies w)
               (handed ++ [LayerGetOrCreate req])
      | Raise e => (Raised e, mkWorld (join_replies w) (handed ++ [LayerGetOrCreate req]))
      end
  end.
Proof.
  intros Htag handed. subst handed. unfold create_or_get. rewrite Htag.
  unfold mbind, M_bind at 1 2.
  pose proof (gather_create_or_get_object session (map snd (base_layers self)) w) as Hw.
  pose proof (gather_create_or_get_object_outcome session (map snd (base_layers self)) w) as Ho.
  destruct (gather _ w) as [out w']. cbn [fst snd] in Hw, Ho. subst out w'.
  destruct (mapM _ _) as [objs|e].
  - fold (get_or_create_request session self objs).
    unfold M_bind, mret, M_ret, await, wait_for_layer. cbn [join_replies world_log].
    destruct (stub_LayerGetOrCreate stub _) as [resp|e]; reflexivity.
  - destruct (first_raised _) as [[t e']|]; reflexivity.
Qed.

Lemma zip_with_base_layers (aliases : list str) (objs : list Layer) :
  length aliases = length objs ->
  map api_pb2.BaseLayer.docker_tag
      (zip_with (fun docker_tag layer =>
                   api_pb2.BaseLayer.mk docker_tag (default "" (object_id layer)))
                aliases objs) = aliases
  /\ map api_pb2.BaseLayer.layer_id
         (zip_with (fun docker_tag layer =>
                      api_pb2.BaseLayer.mk docker_tag (default "" (object_id layer)))
                   aliases objs) = map (fun o => default "" (object_id o)) objs.
Proof.
  revert objs. induction aliases as [|a aliases IH]; intros [|o objs]; try discriminate.
  - split; reflexivity.
  - intros [= Hlen]. destruct (IH objs Hlen) as [IH1 IH2].
    cbn [zip_with map]. cbn [api_pb2.BaseLayer.docker_tag api_pb2.BaseLayer.layer_id].
    now rewrite IH1, IH2.
Qed.

Lemma is_LayerJoin_replicate n layer_id sid :
  forallb is_LayerJoin (replicate n (join_call layer_id sid)) = true.
Proof. induction n; [reflexivity|]. cbn [replicate forallb]. now rewrite IHn. Qed.

(** [X15] Resolving a layer whose tag is unset ([None] or the empty string)
    when the session resolves every base layer: the base layers are handed
    to the session in the order of the mapping, then one [LayerGetOrCreate]
    request is sent, then only join calls.  The request carries the session
    identifier, [must_create], the layer's [local_id], [local] flag, commands
    and context files, and for each base layer its alias with the remote
    identifier of the object the session handed back, in the same order.
    The value returned can only be the handle of the response. *)
Theorem untagged_layer_resolution stub session self objs w :
  truthy (tag self) = false ->
  mapM (session_create_or_get_object session) (map snd (base_layers self)) = Ok objs ->
  exists req joins,
    world_log (resolve stub session self w).2
    = world_log w ++ map create_or_get_object (map snd (base_layers self))
                  ++ LayerGetOrCreate req :: joins
    /\ forallb is_LayerJoin joins = true
    /\ api_pb2.LayerGetOrCreateRequest.session_id req = session_id session
    /\ api_pb2.LayerGetOrCreateRequest.must_create req = must_create self
    /\ api_pb2.Layer.local_id (api_pb2.LayerGetOrCreateRequest.layer req) = local_id self
    /\ api_pb2.Layer.local (api_pb2.LayerGetOrCreateRequest.layer req) = local self
    /\ api_pb2.Layer.dockerfile_commands (api_pb2.LayerGetOrCreateRequest.layer req)
       = dockerfile_commands self
    /\ map api_pb2.BaseLayer.docker_tag
           (api_pb2.Layer.base_layers (api_pb2.LayerGetOrCreateRequest.layer req))
       = map fst (base_layers self)
    /\ map api_pb2.BaseLayer.layer_id
           (api_pb2.Layer.base_layers (api_pb2.LayerGetOrCreateRequest.layer req))
       = map (fun o => default "" (object_id o)) objs
    /\ map (fun f => (api_pb2.LayerContextFile.filename f, api_pb2.LayerContextFile.data f))
           (api_pb2.Layer.context_files (api_pb2.LayerGetOrCreateRequest.layer req))
       = context_files self
    /\ (forall id, (resolve stub session self w).1 = Done id ->
          exists resp,
            stub_LayerGetOrCreate stub req = Ok resp
            /\ id = api_pb2.LayerResponse.layer_id resp).
Proof.
  intros Htag Hobjs.
  rewrite (create_or_get_untagged_eq stub session self w Htag), Hobjs. cbn zeta.
  assert (Hlen : length (map fst (base_layers self)) = length objs).
  { apply mapM_result_Ok, Forall2_length in Hobjs. now rewrite !length_map in *. }
  destruct (zip_with_base_layers _ _ Hlen) as [Htags Hids].
  assert (Hfiles :
    map (fun f => (api_pb2.LayerContextFile.filename f, api_pb2.LayerContextFile.data f))
        (map (fun '(filename, data) => api_pb2.LayerContextFile.mk filename data)
             (context_files self)) = context_files self).
  { rewrite map_map. rewrite <- (map_id (context_files self)) at 2.
    apply map_ext. now intros [? ?]. }
  exists (get_or_create_request session self objs).
  destruct (stub_LayerGetOrCreate stub _) as [resp|e].
  - destruct (join_loop_calls SUCCESS FAILURE BLOCKING_REQUEST_TIMEOUT GRPC_REQUEST_TIMEOUT
                (api_pb2.LayerResponse.layer_id resp) (session_id session) (join_replies w)
                ((world_log w ++ map create_or_get_object (map snd (base_layers self)))
                 ++ [LayerGetOrCreate (get_or_create_request session self objs)]))
      as (n & Hlog & Hout & _).
    exists (replicate (S n)
              (join_call (api_pb2.LayerResponse.layer_id resp) (session_id session))).
    split; [rewrite Hlog, <- !app_assoc; reflexivity|].
    split; [apply is_LayerJoin_replicate|].
    repeat (split; [first [reflexivity | assumption]|]).
    intros id Hid. exists resp. split; [reflexivity|]. now apply Hout.
  - exists []. cbn [fst snd world_log]. split; [now rewrite <- !app_assoc|].
    split; [reflexivity|].
    repeat (split; [first [reflexivity | assumption]|]).
    discriminate.
Qed.

(** [X16] When the session raises for a base layer, and does so before it
    raises for any other base layer, resolving the layer raises that
    exception, wherever the base layer stands in the mapping.  Every base
    layer has been handed to the session, but no [LayerGetOrCreate] request
    and no join call is made, and the join replies stay unread. *)
Theorem base_layer_failure_aborts stub session self pre layer post e w :
  truthy (tag self) = false ->
  map snd (base_layers self) = pre ++ layer :: post ->
  session_create_or_get_object session layer = Raise e ->
  (forall l, In l (pre ++ post) ->
             (exists e', session_create_or_get_object session l = Raise e') ->
             session_finished_at session layer < session_finished_at session l) ->
  resolve stub session self w
  = (Raised e,
     mkWorld (join_replies w)
             (world_log w ++ map create_or_get_object (pre ++ layer :: post))).
Proof.
  intros Htag Hbases Hlayer Hfirst.
  rewrite (create_or_get_untagged_eq stub session self w Htag), Hbases. cbn zeta.
  destruct (mapM_result_fails (session_create_or_get_object session)
              (pre ++ layer :: post) layer) as [e0 ->]; [apply in_elt|eauto|].
  now rewrite (first_raised_earliest session pre post layer e Hlayer Hfirst).
Qed.

(** [X17] When the lookup or the creation request itself raises, resolving
    the layer raises the same exception, without any join call and with the
    join replies unread. *)
Theorem request_failure_skips_join stub session self w e :
  (forall t,
      tag self = Some t -> t <> "" ->
      stub_LayerGetByTag stub (api_pb2.LayerGetByTagRequest.mk t) = Raise e ->
      resolve stub session self w
      = (Raised e,
         mkWorld (join_replies w)
                 (world_log w ++ [LayerGetByTag (api_pb2.LayerGetByTagRequest.mk t)])))
  /\ (forall objs,
        truthy (tag self) = false ->
        mapM (session_create_or_get_object session) (map snd (base_layers self)) = Ok objs ->
        stub_LayerGetOrCreate stub (get_or_create_request session self objs) = Raise e ->
        resolve stub session self w
        = (Raised e,
           mkWorld (join_replies w)
                   (world_log w ++ map create_or_get_object (map snd (base_layers self))
                               ++ [LayerGetOrCreate (get_or_create_request session self objs)]))).
Proof.
  split.
  - intros t Htag Ht He.
    now rewrite (create_or_get_tagged SUCCESS FAILURE BLOCKING_REQUEST_TIMEOUT
                   GRPC_REQUEST_TIMEOUT stub session self t w Htag Ht), He.
  - intros objs Htag Hobjs He.
    rewrite (create_or_get_untagged_eq stub session self w Htag), Hobjs. cbn zeta.
    now rewrite He, <- app_assoc.
Qed.

Lemma is_create_or_get_object_map (layers : list Layer) :
  forallb is_create_or_get_object (map create_or_get_object layers) = true.
Proof. induction layers; [reflexivity|]. cbn [map forallb]. now rewrite IHlayers. Qed.

(** [X18] Whatever the layer, the remote side and the session do, the calls
    of one resolution come in three phases: base layers handed to the
    session (none when the tag is set), then at most one lookup or creation
    request, then join calls, which are made only after a request.  The join
    replies read are as many as the join calls that got one, and a value is
    returned only after at least one join call. *)
Theorem create_or_get_call_phases stub session self w :
  exists handed requests joins,
    world_log (resolve stub session self w).2 = world_log w ++ handed ++ requests ++ joins
    /\ forallb is_create_or_get_object handed = true
    /\ forallb is_request requests = true
    /\ forallb is_LayerJoin joins = true
    /\ length requests <= 1
    /\ (truthy (tag self) = true -> handed = [])
    /\ (joins <> [] -> length requests = 1)
    /\ join_replies (resolve stub session self w).2 = drop (length joins) (join_replies w)
    /\ (forall id, (resolve stub session self w).1 = Done id -> joins <> []).
Proof.
  destruct (truthy (tag self)) eqn:Htruthy.
  - destruct (truthy_Some _ Htruthy) as (t & Htag & Ht).
    rewrite (create_or_get_tagged SUCCESS FAILURE BLOCKING_REQUEST_TIMEOUT
               GRPC_REQUEST_TIMEOUT stub session self t w Htag Ht).
    exists [], [LayerGetByTag (api_pb2.LayerGetByTagRequest.mk t)].
    destruct (stub_LayerGetByTag stub _) as [resp|e].
    + destruct (join_loop_calls SUCCESS FAILURE BLOCKING_REQUEST_TIMEOUT GRPC_REQUEST_TIMEOUT
                  (api_pb2.LayerResponse.layer_id resp) (session_id session) (join_replies w)
                  (world_log w ++ [LayerGetByTag (api_pb2.LayerGetByTagRequest.mk t)]))
        as (n & Hlog & _ & Hrest).
      exists (replicate (S n)
                (join_call (api_pb2.LayerResponse.layer_id resp) (session_id session))).
      rewrite Hlog, Hrest, length_replicate, <- app_assoc.
      repeat split; auto using is_LayerJoin_replicate; discriminate.
    + exists []. cbn. repeat split; auto; try discriminate; congruence.
  - rewrite (create_or_get_untagged_eq stub session self w Htruthy). cbn zeta.
    exists (map create_or_get_object (map snd (base_layers self))).
    destruct (mapM _ _) as [objs|e].
    + exists [LayerGetOrCreate (get_or_create_request session self objs)].
      destruct (stub_LayerGetOrCreate stub _) as [resp|e].
      * destruct (join_loop_calls SUCCESS FAILURE BLOCKING_REQUEST_TIMEOUT
                    GRPC_REQUEST_TIMEOUT
                    (api_pb2.LayerResponse.layer_id resp) (session_id session) (join_replies w)
                    ((world_log w ++ map create_or_get_object (map snd (base_layers self)))
                     ++ [LayerGetOrCreate (get_or_create_request session self objs)]))
          as (n & Hlog & _ & Hrest).
        exists (replicate (S n)
                  (join_call (api_pb2.LayerResponse.layer_id resp) (session_id session))).
        rewrite Hlog, Hrest, length_replicate, <- !app_assoc.
        repeat split; auto using is_LayerJoin_replicate, is_create_or_get_object_map;
          discriminate.
      * exists []. cbn [fst snd world_log join_replies length drop app].
        rewrite <- !app_assoc.
        repeat split; auto using is_create_or_get_object_map; try discriminate; congruence.
    + exists [], [].
      destruct (first_raised _) as [[t e']|];
        cbn [fst snd world_log join_replies length drop app];
        rewrite app_nil_r;
        repeat split; auto using is_create_or_get_object_map; try discriminate;
        try congruence.
Qed.

(** [create_or_get] does not read the remote identifier the object may
    already hold: resolving an object again makes the same calls, reads the
    same replies and ends the same way as resolving it the first time. *)
Lemma create_or_get_ignores_object_id stub session self oid w :
  resolve stub session (with_object_id oid self) w = resolve stub session self w.
Proof. reflexivity. Qed.

Variable digest : bytes -> str.

(** [X19] Building a layer with [add_python_packages] and resolving it, when
    the session resolves both base layers: the receiver and then the builder
    are handed to the session, and the one [LayerGetOrCreate] request names
    them ["base"] and ["builder"] with the identifiers the session gave
    them, carries the six lines of the build script and the [local_id]
    computed at construction, and does not ask for a forced creation.  The
    builder's tag is not looked up by this resolution. *)
Theorem add_python_packages_resolution stub session self pkgs links L builder o1 o2 w :
  add_python_packages digest self pkgs links = Ok L ->
  base_layers L = [("base", as_layer self); ("builder", builder)] ->
  session_create_or_get_object session (as_layer self) = Ok o1 ->
  session_create_or_get_object session builder = Ok o2 ->
  exists req joins,
    world_log (resolve stub session L w).2
    = world_log w ++ [create_or_get_object (as_layer self); create_or_get_object builder;
                      LayerGetOrCreate req] ++ joins
    /\ forallb is_LayerJoin joins = true
    /\ api_pb2.Layer.base_layers (api_pb2.LayerGetOrCreateRequest.layer req)
       = [api_pb2.BaseLayer.mk "base" (default "" (object_id o1));
          api_pb2.BaseLayer.mk "builder" (default "" (object_id o2))]
    /\ api_pb2.Layer.dockerfile_commands (api_pb2.LayerGetOrCreateRequest.layer req)
       = map list_byte_of_string (wheel_script pkgs links)
    /\ api_pb2.Layer.context_files (api_pb2.LayerGetOrCreateRequest.layer req) = []
    /\ api_pb2.Layer.local_id (api_pb2.LayerGetOrCreateRequest.layer req) = local_id L
    /\ api_pb2.LayerGetOrCreateRequest.must_create req = false.
Proof.
  rewrite add_python_packages_eq, Layer__init__eq.
  destruct (mapM _make_bytes _) as [bs|e] eqn:Hbs; [|discriminate].
  intros [= HL] Hbl Ho1 Ho2.
  assert (Hscript : bs = map list_byte_of_string (wheel_script pkgs links)).
  { apply mapM_result_Ok in Hbs. clear -Hbs.
    revert bs Hbs. induction (wheel_script pkgs links) as [|x l IH]; intros bs H.
    - inversion H. reflexivity.
    - cbn [map] in H. inversion H as [|? b ? bs' Hx Hl]; subst. cbn [map].
      cbn [_make_bytes] in Hx. unfold encode_ascii in Hx.
      destruct (is_ascii x); [|discriminate]. injection Hx as <-. f_equal. now apply IH. }
  assert (Htag : truthy (tag L) = false) by now rewrite <- HL.
  assert (Hcmds : dockerfile_commands L = bs) by now rewrite <- HL.
  assert (Hfiles : context_files L = []) by now rewrite <- HL.
  assert (Hmust : must_create L = false) by now rewrite <- HL.
  clear HL.
  rewrite (create_or_get_untagged_eq stub session L w Htag). cbn zeta.
  rewrite Hbl. cbn [map snd]. rewrite !mapM_result_cons, Ho1, Ho2. cbn [mapM mret result_ret].
  exists (get_or_create_request session L [o1; o2]).
  assert (Hreq :
    api_pb2.Layer.base_layers
      (api_pb2.LayerGetOrCreateRequest.layer (get_or_create_request session L [o1; o2]))
    = [api_pb2.BaseLayer.mk "base" (default "" (object_id o1));
       api_pb2.BaseLayer.mk "builder" (default "" (object_id o2))]
    /\ api_pb2.Layer.dockerfile_commands
         (api_pb2.LayerGetOrCreateRequest.layer (get_or_create_request session L [o1; o2]))
       = map list_byte_of_string (wheel_script pkgs links)
    /\ api_pb2.Layer.context_files
         (api_pb2.LayerGetOrCreateRequest.layer (get_or_create_request session L [o1; o2]))
       = []
    /\ api_pb2.Layer.local_id
         (api_pb2.LayerGetOrCreateRequest.layer (get_or_create_request session L [o1; o2]))
       = local_id L
    /\ api_pb2.LayerGetOrCreateRequest.must_create
         (get_or_create_request session L [o1; o2]) = false).
  { unfold get_or_create_request. cbn. rewrite Hbl, Hcmds, Hfiles, Hmust, Hscript.
    repeat split. }
  destruct (stub_LayerGetOrCreate stub _) as [resp|e].
  - match goal with
    | |- context [join_loop _ _ _ _ ?lid ?sid ?replies ?log] =>
        destruct (join_loop_calls SUCCESS FAILURE BLOCKING_REQUEST_TIMEOUT
                    GRPC_REQUEST_TIMEOUT lid sid replies log) as (n & Hlog & _ & _)
    end.
    eexists. split; [rewrite Hlog, <- !app_assoc; reflexivity|].
    split; [apply is_LayerJoin_replicate|exact Hreq].
  - exists []. cbn [fst snd world_log]. split; [now rewrite <- !app_assoc|].
    split; [reflexivity|exact Hreq].
Qed.

End MoreResolutionFacts.

(** ** The proxy tunnel *)

(** [X20] With a proxy and a host that lets every step through, the wait of
    three seconds included, the block runs inside a tunnel: the key is
    written to the temporary file, [ssh] is started on that file with the
    remote port forwarded to the same local port, three seconds pass, the
    block runs, the process is killed and the file is removed.  The kill and the removal happen whether the block
    returns or raises, and its outcome is the outcome of the whole. *)
Theorem proxy_tunnel_established h info name body :
  host_tempfile h = Ok name -> host_write h = None -> host_spawn h = None ->
  host_sleep h = None ->
  proxy_tunnel h (Some info) body
  = ([TempFileCreate name;
      FileWrite name (proxy_key info);
      ProcessSpawn ["ssh"; "-i"; name; "-T"; "-n"; "-N"; "-L";
                    str_of_Z (remote_port info) +:+ ":" +:+ remote_addr info +:+ ":"
                      +:+ str_of_Z (remote_port info);
                    "ubuntu@" +:+ elastic_ip info;
                    "-o"; "StrictHostKeyChecking=no"];
      Sleep 3;
      BodyRun;
      ProcessKill;
      TempFileDelete name],
     body).
Proof.
  intros Hname Hwrite Hspawn Hsleep. unfold proxy_tunnel, with_NamedTemporaryFile.
  rewrite Hname, Hwrite, Hspawn, Hsleep. destruct body; reflexivity.
Qed.

(** [X21] When a step of the setup raises, the block never runs and the
    exception is the outcome.  Nothing is killed, since nothing was
    started; the temporary file, once created, is removed all the same. *)
Theorem proxy_tunnel_setup_failure h info body e :
  (host_tempfile h = Raise e -> proxy_tunnel h (Some info) body = ([], Raise e))
  /\ (forall name,
        host_tempfile h = Ok name -> host_write h = Some e ->
        proxy_tunnel h (Some info) body
        = ([TempFileCreate name; TempFileDelete name], Raise e))
  /\ (forall name,
        host_tempfile h = Ok name -> host_write h = None -> host_spawn h = Some e ->
        proxy_tunnel h (Some info) body
        = ([TempFileCreate name; FileWrite name (proxy_key info); TempFileDelete name],
           Raise e)).
Proof.
  unfold proxy_tunnel, with_NamedTemporaryFile. repeat split.
  - now intros ->.
  - now intros name -> ->.
  - now intros name -> -> ->.
Qed.

(** [X22] In every case, with or without a proxy and whatever the host and
    the block do: a temporary file is removed exactly when one was created,
    at most one; at most one process is started, and only after the file
    was created; a process is killed only when one was started, and exactly
    when the block ran under a proxy.  The one case in which a started
    process is not killed is an exception raised by the wait of three
    seconds: the key was written and [ssh] started, the file is removed, the
    block does not run, the exception is the outcome, and [ssh] is left
    running.  When the wait does not raise, the processes started and killed
    are as many.  The block runs at most once; when it ran, its outcome is
    the outcome of the whole, and when it did not, the whole raised.
    Without a proxy the block is all that happens. *)
Theorem proxy_tunnel_balanced h info body :
  let events := (proxy_tunnel h info body).1 in
  let outcome := (proxy_tunnel h info body).2 in
  count_event is_create events = count_event is_delete events
  /\ count_event is_create events <= 1
  /\ count_event is_spawn events <= count_event is_create events
  /\ count_event is_kill events <= count_event is_spawn events
  /\ (info <> None -> count_event is_kill events = count_event is_body events)
  /\ (host_sleep h = None -> count_event is_spawn events = count_event is_kill events)
  /\ (forall info' name e,
        info = Some info' -> host_tempfile h = Ok name -> host_write h = None ->
        host_spawn h = None -> host_sleep h = Some e ->
        events = [TempFileCreate name; FileWrite name (proxy_key info');
                  ProcessSpawn (tunnel_cmd name info'); TempFileDelete name]
        /\ outcome = Raise e)
  /\ (count_event is_spawn events = count_event is_kill events
      \/ count_event is_spawn events = 1 /\ count_event is_kill events = 0
         /\ exists e, host_sleep h = Some e /\ outcome = Raise e)
  /\ (count_event is_body events = 1 /\ outcome = body
      \/ count_event is_body events = 0 /\ exists e, outcome = Raise e)
  /\ (info = None -> events = [BodyRun]).
Proof.
  unfold proxy_tunnel, with_NamedTemporaryFile.
  destruct info as [info|];
    [|cbn; repeat split; auto; try congruence; intros; discriminate].
  destruct (host_tempfile h) as [name|e];
    [|cbn; repeat split; eauto; try discriminate; intros; discriminate].
  destruct (host_write h) as [e|];
    [cbn; repeat split; eauto; try discriminate; intros; discriminate|].
  destruct (host_spawn h) as [e|];
    [cbn; repeat split; eauto; try discriminate; intros; discriminate|].
  destruct (host_sleep h) as [e|].
  - cbn. repeat split; eauto; try discriminate; try (simplify_eq; reflexivity).
    right. eauto.
  - destruct body; cbn; repeat split; auto; try discriminate; intros; discriminate.
Qed.

(** ** The further properties at concrete inputs *)

Section MoreConcrete.

Import Examples MoreExamples.

#[local] Abbreviation SUCCESS := 1%Z.
#[local] Abbreviation FAILURE := 2%Z.
#[local] Abbreviation BLOCKING_REQUEST_TIMEOUT := 40%Z.
#[local] Abbreviation GRPC_REQUEST_TIMEOUT := 45%Z.
#[local] Abbreviation join_call :=
  (join_request BLOCKING_REQUEST_TIMEOUT GRPC_REQUEST_TIMEOUT).
#[local] Abbreviation join :=
  (join_loop SUCCESS FAILURE BLOCKING_REQUEST_TIMEOUT GRPC_REQUEST_TIMEOUT).
#[local] Abbreviation wait :=
  (wait_for_layer SUCCESS FAILURE BLOCKING_REQUEST_TIMEOUT GRPC_REQUEST_TIMEOUT).
#[local] Abbreviation resolve :=
  (create_or_get SUCCESS FAILURE BLOCKING_REQUEST_TIMEOUT GRPC_REQUEST_TIMEOUT).

Lemma Layer_init_succeeds_iff_witness :
  forallb normalisable [PyStr "RUN ls"; PyBytes (octets "RUN pwd")] = true
  /\ exists L,
       Layer__init__ sha (Some "t") [] [PyStr "RUN ls"; PyBytes (octets "RUN pwd")] []
                     true false = Ok L
       /\ tag L = Some "t" /\ must_create L = true
       /\ length (dockerfile_commands L) = 2.
Proof.
  assert (H : forallb normalisable [PyStr "RUN ls"; PyBytes (octets "RUN pwd")] = true)
    by reflexivity.
  split; [exact H|].
  destruct (Layer_init_succeeds_iff sha (Some "t") []
              [PyStr "RUN ls"; PyBytes (octets "RUN pwd")] [] true false) as [Hiff Hfields].
  destruct (proj2 Hiff H) as [L HL]. exists L. split; [exact HL|].
  destruct (Hfields L HL) as (Ht & _ & _ & Hmc & _ & Hlen & _). auto.
Defined.

Lemma first_offending_command_decides_witness :
  forallb normalisable [PyStr "FROM base"] = true
  /\ normalisable (PyInt 3) = false
  /\ Layer__init__ sha None [] ([PyStr "FROM base"] ++ PyInt 3 :: [PyStr "RUN echo café"])
                   [] false false = Raise AssertionError.
Proof.
  assert (H1 : forallb normalisable [PyStr "FROM base"] = true) by reflexivity.
  assert (H2 : normalisable (PyInt 3) = false) by reflexivity.
  split; [exact H1|]. split; [exact H2|].
  exact (first_offending_command_decides sha None [] _ _ [PyStr "RUN echo café"] []
           false false H1 H2).
Defined.

Lemma DebianSlim_init_total_witness :
  exists d,
    DebianSlim__init__ sha (Some "") (3, 9, 5)%Z None = Ok d
    /\ python_version d = "3.9.5"
    /\ tag (as_layer d) = Some "python-3.9.5-slim-buster-base".
Proof.
  destruct (DebianSlim_init_total sha (Some "") (3, 9, 5)%Z None)
    as (d & Hd & _ & _ & Hver & Htag & _).
  exists d. split; [exact Hd|].
  assert (Hv : python_version d = "3.9.5") by (apply Hver; reflexivity).
  split; [exact Hv|]. rewrite Htag, Hv. reflexivity.
Defined.

Lemma DebianSlim_versions_share_local_id_witness :
  DebianSlim__init__ sha None (3, 9, 5)%Z None = Ok debian_slim
  /\ DebianSlim__init__ sha None (3, 9, 5)%Z (Some "3.10.1") = Ok debian_slim_310
  /\ python_version debian_slim <> python_version debian_slim_310
  /\ local_id (as_layer debian_slim) = local_id (as_layer debian_slim_310)
  /\ is_inside marker_set (as_layer debian_slim_310) = true.
Proof.
  assert (H1 : DebianSlim__init__ sha None (3, 9, 5)%Z None = Ok debian_slim)
    by (vm_compute; reflexivity).
  assert (H2 : DebianSlim__init__ sha None (3, 9, 5)%Z (Some "3.10.1") = Ok debian_slim_310)
    by (vm_compute; reflexivity).
  destruct (DebianSlim_versions_share_local_id sha _ _ _ _ _ _ _ _ H1 H2)
    as (_ & Hid & Hinside).
  split; [exact H1|]. split; [exact H2|]. split; [discriminate|]. split; [exact Hid|].
  rewrite <- Hinside. vm_compute. reflexivity.
Defined.

Lemma is_inside_environ_updates_witness :
  "HOME" <> "POLYESTER_IMAGE_LOCAL_ID"
  /\ is_inside (<["HOME" := "/home/me"]> marker_set) slim = is_inside marker_set slim
  /\ "other" <> local_id slim
  /\ is_inside (<["POLYESTER_IMAGE_LOCAL_ID" := "other"]> marker_set) slim = false.
Proof.
  assert (H1 : "HOME" <> "POLYESTER_IMAGE_LOCAL_ID") by discriminate.
  assert (H2 : "other" <> local_id slim) by discriminate.
  destruct (is_inside_environ_updates marker_set slim) as (_ & _ & Hother & Hkeys).
  split; [exact H1|]. split; [exact (proj1 (Hkeys "HOME" "/home/me" H1))|].
  split; [exact H2|]. exact (Hother "other" H2).
Defined.

Lemma local_id_separator_collision_witness :
  exists L1 L2,
    Layer__init__ sha None [] [] [("a", octets "1"); ("b", octets "2")] false false = Ok L1
    /\ Layer__init__ sha None [] []
         [("a" +:+ ":" +:+ sha (octets "1") +:+ ",f:" +:+ "b", octets "2")] false false = Ok L2
    /\ local_id L1 = local_id L2
    /\ context_files L1 <> context_files L2.
Proof.
  do 2 eexists.
  split; [vm_compute; reflexivity|]. split; [vm_compute; reflexivity|].
  refine (proj1 (local_id_separator_collision sha None [] false false)
            [] "a" (octets "1") "b" (octets "2") _ _ _ _); vm_compute; reflexivity.
Defined.

Lemma run_commands_layer_witness :
  forallb is_ascii_str [PyStr "apt-get update"; PyStr "apt-get install -y git"] = true
  /\ forallb is_str [PyStr "apt-get update"; PyBytes (octets "ls")] = false
  /\ (exists L,
        run_commands sha debian_slim [PyStr "apt-get update"; PyStr "apt-get install -y git"]
        = Ok L
        /\ base_layers L = [("base", slim)]
        /\ dockerfile_commands L
           = [octets "FROM base"; octets "RUN apt-get update";
              octets "RUN apt-get install -y git"])
  /\ run_commands sha debian_slim [PyStr "apt-get update"; PyBytes (octets "ls")]
     = Raise TypeError.
Proof.
  assert (H : forallb is_ascii_str [PyStr "apt-get update"; PyStr "apt-get install -y git"]
              = true) by reflexivity.
  assert (Hb : forallb is_str [PyStr "apt-get update"; PyBytes (octets "ls")] = false)
    by reflexivity.
  split; [exact H|]. split; [exact Hb|]. split.
  - destruct (run_commands_layer sha debian_slim
                [PyStr "apt-get update"; PyStr "apt-get install -y git"])
      as (Hiff & _ & _ & Hfields).
    destruct (proj2 Hiff H) as [L HL]. exists L. split; [exact HL|].
    destruct (Hfields L HL) as (texts & Htexts & _ & Hbl & Hcmds & _).
    destruct texts as [|x [|y [|z texts]]]; try discriminate.
    injection Htexts as <- <-.
    split; [exact Hbl|exact Hcmds].
  - exact (proj1 (proj2 (run_commands_layer sha debian_slim
                           [PyStr "apt-get update"; PyBytes (octets "ls")])) Hb).
Defined.

Lemma run_commands_split_line_witness :
  forallb is_ascii ([] ++ "cd /srv" :: "make" :: []) = true
  /\ exists L1 L2,
       run_commands sha debian_slim [PyStr "cd /srv"; PyStr "make"] = Ok L1
       /\ run_commands sha debian_slim
            [PyStr ("cd /srv" +:+ String newline "RUN " +:+ "make")] = Ok L2
       /\ local_id L1 = local_id L2.
Proof.
  assert (H : forallb is_ascii ([] ++ "cd /srv" :: "make" :: []) = true) by reflexivity.
  split; [exact H|].
  destruct (run_commands_split_line sha debian_slim [] "cd /srv" "make" [] H)
    as (L1 & L2 & H1 & H2 & Hid & _).
  exists L1, L2. auto.
Defined.

Lemma add_python_packages_ignores_version_witness :
  exists L1 L2,
    DebianSlim__init__ sha None (3, 9, 5)%Z None = Ok debian_slim
    /\ DebianSlim__init__ sha None (3, 9, 5)%Z (Some "3.10.1") = Ok debian_slim_310
    /\ add_python_packages sha debian_slim ["numpy"] None = Ok L1
    /\ add_python_packages sha debian_slim_310 ["numpy"] None = Ok L2
    /\ local_id L1 = local_id L2
    /\ base_layers L1 <> base_layers L2.
Proof.
  assert (H1 : DebianSlim__init__ sha None (3, 9, 5)%Z None = Ok debian_slim)
    by (vm_compute; reflexivity).
  assert (H2 : DebianSlim__init__ sha None (3, 9, 5)%Z (Some "3.10.1") = Ok debian_slim_310)
    by (vm_compute; reflexivity).
  do 2 eexists.
  split; [exact H1|]. split; [exact H2|].
  split; [vm_compute; reflexivity|]. split; [vm_compute; reflexivity|].
  refine ((fun H => conj (proj1 H) (proj2 H _))
            (add_python_packages_ignores_version sha _ _ _ _ _ _ _ _ ["numpy"] None _ _
               H1 H2 _ _)); [discriminate| |]; vm_compute; reflexivity.
Defined.

Lemma join_loop_returns_after_success_witness :
  join "la-7" "se-1" [join_reply 0 ""; join_reply SUCCESS ""; join_reply 0 "later"] []
  = (Done "la-7",
     mkWorld [join_reply 0 "later"] [join_call "la-7" "se-1"; join_call "la-7" "se-1"])
  /\ exists pre response,
       [join_reply 0 ""; join_reply SUCCESS ""; join_reply 0 "later"]
       = pre ++ Ok response :: [join_reply 0 "later"]
       /\ forallb is_pending pre = true
       /\ api_pb2.GenericResult.status (api_pb2.LayerJoinResponse.result response) = SUCCESS.
Proof.
  assert (H : join "la-7" "se-1"
                [join_reply 0 ""; join_reply SUCCESS ""; join_reply 0 "later"] []
              = (Done "la-7",
                 mkWorld [join_reply 0 "later"]
                         [join_call "la-7" "se-1"; join_call "la-7" "se-1"]))
    by reflexivity.
  split; [exact H|].
  destruct (join_loop_returns_after_success _ _ _ _ _ _ _ _ _ _ H)
    as (_ & pre & response & Hreplies & Hpre & Hs & _).
  exists pre, response. auto.
Defined.

Lemma join_loop_pending_never_ends_witness :
  forallb is_pending [join_reply 0 ""; join_reply 0 "still building"] = true
  /\ wait "la-7" "se-1" (mkWorld [join_reply 0 ""; join_reply 0 "still building"] [])
     = (Waiting, mkWorld [] (replicate 3 (join_call "la-7" "se-1"))).
Proof.
  assert (H : forallb is_pending [join_reply 0 ""; join_reply 0 "still building"] = true)
    by reflexivity.
  split; [exact H|].
  exact (join_loop_pending_never_ends SUCCESS FAILURE BLOCKING_REQUEST_TIMEOUT
           GRPC_REQUEST_TIMEOUT "la-7" "se-1" _ [] H).
Defined.

Lemma join_loop_after_pending_witness :
  forallb is_pending [join_reply 0 ""; join_reply 0 ""; join_reply 0 ""] = true
  /\ (SUCCESS <> 0%Z /\ FAILURE <> 0%Z /\ SUCCESS <> FAILURE)
  /\ wait "la-7" "se-1"
       (mkWorld ([join_reply 0 ""; join_reply 0 ""; join_reply 0 ""]
                 ++ Raise (RpcError "connection reset") :: [join_reply SUCCESS ""]) [])
     = (Raised (RpcError "connection reset"),
        mkWorld [join_reply SUCCESS ""] (replicate 4 (join_call "la-7" "se-1"))).
Proof.
  assert (H : forallb is_pending [join_reply 0 ""; join_reply 0 ""; join_reply 0 ""] = true)
    by reflexivity.
  assert (HS : SUCCESS <> 0%Z) by discriminate.
  assert (HF : FAILURE <> 0%Z) by discriminate.
  assert (HSF : SUCCESS <> FAILURE) by discriminate.
  split; [exact H|]. split; [auto|].
  exact (proj2 (proj2 (join_loop_after_pending SUCCESS FAILURE BLOCKING_REQUEST_TIMEOUT
                         GRPC_REQUEST_TIMEOUT "la-7" "se-1" _ [join_reply SUCCESS ""] []
                         H HS HF HSF))
           (RpcError "connection reset")).
Defined.

Lemma untagged_layer_resolution_witness :
  truthy (tag two_tagged_bases) = false
  /\ mapM (session_create_or_get_object tags_only_session)
          (map snd (base_layers two_tagged_bases))
     = Ok [with_object_id (Some "la-t1") (tagged "t1");
           with_object_id (Some "la-t2") (tagged "t2")]
  /\ exists req,
       api_pb2.LayerGetOrCreateRequest.must_create req = true
       /\ map api_pb2.BaseLayer.docker_tag
              (api_pb2.Layer.base_layers (api_pb2.LayerGetOrCreateRequest.layer req))
          = ["a"; "c"]
       /\ map api_pb2.BaseLayer.layer_id
              (api_pb2.Layer.base_layers (api_pb2.LayerGetOrCreateRequest.layer req))
          = ["la-t1"; "la-t2"].
Proof.
  assert (H1 : truthy (tag two_tagged_bases) = false) by reflexivity.
  assert (H2 : mapM (session_create_or_get_object tags_only_session)
                    (map snd (base_layers two_tagged_bases))
               = Ok [with_object_id (Some "la-t1") (tagged "t1");
                     with_object_id (Some "la-t2") (tagged "t2")])
    by (vm_compute; reflexivity).
  split; [exact H1|]. split; [exact H2|].
  destruct (untagged_layer_resolution SUCCESS FAILURE BLOCKING_REQUEST_TIMEOUT
              GRPC_REQUEST_TIMEOUT stub tags_only_session two_tagged_bases _
              (mkWorld [join_reply SUCCESS ""] []) H1 H2)
    as (req & joins & _ & _ & _ & Hmust & _ & _ & _ & Htags & Hids & _).
  exists req. split; [exact Hmust|]. split; [exact Htags|exact Hids].
Defined.

Lemma base_layer_failure_aborts_witness :
  truthy (tag two_unknown_bases) = false
  /\ map snd (base_layers two_unknown_bases) = [untagged "u"] ++ untagged "long-id" :: []
  /\ session_create_or_get_object slow_session (untagged "long-id")
     = Raise (RpcError "not found: long-id")
  /\ session_finished_at slow_session (untagged "long-id")
     < session_finished_at slow_session (untagged "u")
  /\ resolve stub slow_session two_unknown_bases (mkWorld [join_reply SUCCESS ""] [])
     = (Raised (RpcError "not found: long-id"),
        mkWorld [join_reply SUCCESS ""]
                [create_or_get_object (untagged "u");
                 create_or_get_object (untagged "long-id")]).
Proof.
  assert (H1 : truthy (tag two_unknown_bases) = false) by reflexivity.
  assert (H2 : map snd (base_layers two_unknown_bases)
               = [untagged "u"] ++ untagged "long-id" :: []) by reflexivity.
  assert (H3 : session_create_or_get_object slow_session (untagged "long-id")
               = Raise (RpcError "not found: long-id")) by reflexivity.
  assert (H4 : session_finished_at slow_session (untagged "long-id")
               < session_finished_at slow_session (untagged "u")) by (cbn; lia).
  assert (H5 : forall l, In l ([untagged "u"] ++ []) ->
                 (exists e', session_create_or_get_object slow_session l = Raise e') ->
                 session_finished_at slow_session (untagged "long-id")
                 < session_finished_at slow_session l).
  { intros l [<-|[]] _. exact H4. }
  split; [exact H1|]. split; [exact H2|]. split; [exact H3|]. split; [exact H4|].
  exact (base_layer_failure_aborts SUCCESS FAILURE BLOCKING_REQUEST_TIMEOUT
           GRPC_REQUEST_TIMEOUT stub slow_session two_unknown_bases _ _ _ _
           (mkWorld [join_reply SUCCESS ""] []) H1 H2 H3 H5).
Defined.

Lemma request_failure_skips_join_witness :
  tag slim = Some "python-3.9.5-slim-buster-base"
  /\ "python-3.9.5-slim-buster-base" <> ""
  /\ stub_LayerGetByTag down_stub
       (api_pb2.LayerGetByTagRequest.mk "python-3.9.5-slim-buster-base")
     = Raise (RpcError "unavailable")
  /\ resolve down_stub session slim (mkWorld [join_reply SUCCESS ""] [])
     = (Raised (RpcError "unavailable"),
        mkWorld [join_reply SUCCESS ""]
                [LayerGetByTag
                   (api_pb2.LayerGetByTagRequest.mk "python-3.9.5-slim-buster-base")]).
Proof.
  assert (H1 : tag slim = Some "python-3.9.5-slim-buster-base") by reflexivity.
  assert (H2 : "python-3.9.5-slim-buster-base" <> "") by discriminate.
  assert (H3 : stub_LayerGetByTag down_stub
                 (api_pb2.LayerGetByTagRequest.mk "python-3.9.5-slim-buster-base")
               = Raise (RpcError "unavailable")) by reflexivity.
  split; [exact H1|]. split; [exact H2|]. split; [exact H3|].
  exact (proj1 (request_failure_skips_join SUCCESS FAILURE BLOCKING_REQUEST_TIMEOUT
                  GRPC_REQUEST_TIMEOUT down_stub session slim
                  (mkWorld [join_reply SUCCESS ""] []) (RpcError "unavailable"))
           _ H1 H2 H3).
Defined.

Lemma create_or_get_call_phases_witness :
  truthy (tag slim) = true
  /\ exists requests joins,
       world_log (resolve stub session slim
                          (mkWorld [join_reply 0 ""; join_reply SUCCESS ""] [])).2
       = [] ++ [] ++ requests ++ joins
       /\ length requests <= 1
       /\ forallb is_LayerJoin joins = true.
Proof.
  assert (H : truthy (tag slim) = true) by reflexivity.
  split; [exact H|].
  destruct (create_or_get_call_phases SUCCESS FAILURE BLOCKING_REQUEST_TIMEOUT
              GRPC_REQUEST_TIMEOUT stub session slim
              (mkWorld [join_reply 0 ""; join_reply SUCCESS ""] []))
    as (handed & requests & joins & Hlog & _ & _ & Hjoins & Hlen & Hhanded & _).
  exists requests, joins. rewrite Hlog, (Hhanded H). auto.
Defined.

Lemma add_python_packages_resolution_witness :
  exists L builder o1 o2,
    add_python_packages sha debian_slim ["numpy"] None = Ok L
    /\ base_layers L = [("base", as_layer debian_slim); ("builder", builder)]
    /\ session_create_or_get_object tags_only_session (as_layer debian_slim) = Ok o1
    /\ session_create_or_get_object tags_only_session builder = Ok o2
    /\ exists req,
         api_pb2.Layer.base_layers (api_pb2.LayerGetOrCreateRequest.layer req)
         = [api_pb2.BaseLayer.mk "base" "la-python-3.9.5-slim-buster-base";
            api_pb2.BaseLayer.mk "builder" "la-python-3.9.5-slim-buster-builder"]
         /\ api_pb2.LayerGetOrCreateRequest.must_create req = false.
Proof.
  do 4 eexists.
  split; [vm_compute; reflexivity|]. split; [cbn [base_layers]; reflexivity|].
  split; [reflexivity|]. split; [reflexivity|].
  destruct (add_python_packages_resolution SUCCESS FAILURE BLOCKING_REQUEST_TIMEOUT
              GRPC_REQUEST_TIMEOUT sha stub tags_only_session debian_slim ["numpy"] None
              _ _ _ _ (mkWorld [join_reply SUCCESS ""] [])
              ltac:(vm_compute; reflexivity) ltac:(cbn [base_layers]; reflexivity)
              ltac:(reflexivity) ltac:(reflexivity))
    as (req & joins & _ & _ & Hbl & _ & _ & _ & Hmust).
  exists req. split; [exact Hbl|exact Hmust].
Defined.

Lemma commands_blob_determines_commands_witness :
  (Forall (fun c => ~ In (byte_of_ascii newline) c) [octets "FROM base"; octets "RUN ls"]
   /\ [octets "FROM base"; octets "RUN ls"] <> [])
  /\ (bytes_join [byte_of_ascii newline] [octets "FROM base"; octets "RUN ls"]
      = bytes_join [byte_of_ascii newline] [octets "FROM base"; octets "RUN ls"]
      -> [octets "FROM base"; octets "RUN ls"] = [octets "FROM base"; octets "RUN ls"]).
Proof.
  assert (H : Forall (fun c => ~ In (byte_of_ascii newline) c)
                     [octets "FROM base"; octets "RUN ls"]).
  { repeat constructor; intros Hin; cbn in Hin; intuition discriminate. }
  assert (Hne : [octets "FROM base"; octets "RUN ls"] <> []) by discriminate.
  split; [auto|].
  exact (proj1 (commands_blob_determines_commands sha None [] [] false false)
           _ _ H H Hne Hne).
Defined.

Lemma proxy_tunnel_established_witness :
  (host_tempfile good_host = Ok "/tmp/tmpa1b2.pem"
   /\ host_write good_host = None /\ host_spawn good_host = None
   /\ host_sleep good_host = None)
  /\ proxy_tunnel good_host (Some proxy) (Raise (RpcError "query failed"))
     = ([TempFileCreate "/tmp/tmpa1b2.pem";
         FileWrite "/tmp/tmpa1b2.pem" "-----BEGIN KEY-----";
         ProcessSpawn ["ssh"; "-i"; "/tmp/tmpa1b2.pem"; "-T"; "-n"; "-N"; "-L";
                       "5432:10.0.0.7:5432"; "ubuntu@52.1.2.3";
                       "-o"; "StrictHostKeyChecking=no"];
         Sleep 3; BodyRun; ProcessKill; TempFileDelete "/tmp/tmpa1b2.pem"],
        Raise (RpcError "query failed")).
Proof.
  assert (H1 : host_tempfile good_host = Ok "/tmp/tmpa1b2.pem") by reflexivity.
  assert (H2 : host_write good_host = None) by reflexivity.
  assert (H3 : host_spawn good_host = None) by reflexivity.
  assert (H4 : host_sleep good_host = None) by reflexivity.
  split; [auto|].
  exact (proxy_tunnel_established good_host proxy _ (Raise (RpcError "query failed"))
           H1 H2 H3 H4).
Defined.

Lemma proxy_tunnel_setup_failure_witness :
  (host_tempfile no_ssh_host = Ok "/tmp/tmpa1b2.pem"
   /\ host_write no_ssh_host = None
   /\ host_spawn no_ssh_host = Some (RpcError "ssh: not found"))
  /\ proxy_tunnel no_ssh_host (Some proxy) (Ok tt)
     = ([TempFileCreate "/tmp/tmpa1b2.pem";
         FileWrite "/tmp/tmpa1b2.pem" "-----BEGIN KEY-----";
         TempFileDelete "/tmp/tmpa1b2.pem"],
        Raise (RpcError "ssh: not found")).
Proof.
  assert (H1 : host_tempfile no_ssh_host = Ok "/tmp/tmpa1b2.pem") by reflexivity.
  assert (H2 : host_write no_ssh_host = None) by reflexivity.
  assert (H3 : host_spawn no_ssh_host = Some (RpcError "ssh: not found")) by reflexivity.
  split; [auto|].
  exact (proj2 (proj2 (proxy_tunnel_setup_failure no_ssh_host proxy (Ok tt)
                         (RpcError "ssh: not found"))) _ H1 H2 H3).
Defined.

Lemma proxy_tunnel_balanced_witness :
  (proxy_tunnel good_host None (Raise (RpcError "query failed"))).1 = [BodyRun]
  /\ count_event is_spawn (proxy_tunnel good_host (Some proxy) (Ok tt)).1
     = count_event is_kill (proxy_tunnel good_host (Some proxy) (Ok tt)).1
  /\ host_sleep interrupted_host = Some KeyboardInterrupt
  /\ (proxy_tunnel interrupted_host (Some proxy) (Ok tt)).1
     = [TempFileCreate "/tmp/tmpa1b2.pem";
        FileWrite "/tmp/tmpa1b2.pem" "-----BEGIN KEY-----";
        ProcessSpawn ["ssh"; "-i"; "/tmp/tmpa1b2.pem"; "-T"; "-n"; "-N"; "-L";
                      "5432:10.0.0.7:5432"; "ubuntu@52.1.2.3";
                      "-o"; "StrictHostKeyChecking=no"];
        TempFileDelete "/tmp/tmpa1b2.pem"]
  /\ (proxy_tunnel interrupted_host (Some proxy) (Ok tt)).2 = Raise KeyboardInterrupt.
Proof.
  assert (Hsleep : host_sleep interrupted_host = Some KeyboardInterrupt) by reflexivity.
  assert (Hgood : host_sleep good_host = None) by reflexivity.
  split; [|split; [|split; [exact Hsleep|]]].
  - destruct (proxy_tunnel_balanced good_host None (Raise (RpcError "query failed")))
      as (_ & _ & _ & _ & _ & _ & _ & _ & _ & Hnone).
    exact (Hnone eq_refl).
  - destruct (proxy_tunnel_balanced good_host (Some proxy) (Ok tt))
      as (_ & _ & _ & _ & _ & Hsame & _).
    exact (Hsame Hgood).
  - destruct (proxy_tunnel_balanced interrupted_host (Some proxy) (Ok tt))
      as (_ & _ & _ & _ & _ & _ & Hleft & _).
    exact (Hleft proxy "/tmp/tmpa1b2.pem" KeyboardInterrupt
                 eq_refl eq_refl eq_refl eq_refl Hsleep).
Defined.

End MoreConcrete.
